(** * Vendor runtime resolver (src/electron/utils/packaging.ts)

    A shallow embedding of the packaged-dependency manager: the static
    dependency table, the platform/arch key, the enhanced PATH builder,
    the executable path resolver, the [--version] liveness probe and the
    validation report, together with the properties the specification
    states about them. *)

From Stdlib Require Import String Ascii ZArith List Bool Lia.
From stdpp Require Import base option list gmap strings.
Import ListNotations.

Local Open Scope string_scope.
Local Open Scope Z_scope.

(** ** JavaScript strings

    A JavaScript string is modelled as a [string] of 8-bit characters (the
    code units below 256); every literal of the module is ASCII. *)

Module JsString.

(** [s.startsWith(p)] *)
Definition startsWith (s p : string) : bool := String.prefix p s.

(** [s.includes(sub)]: [sub] occurs at some position of [s]. *)
Fixpoint includes (s sub : string) : bool :=
  String.prefix sub s ||
  match s with
  | EmptyString => false
  | String _ t => includes t sub
  end.

(** White space and line terminators that [trim] strips, among the code
    units below 256: TAB, LF, VT, FF, CR, SP and NBSP. *)
Definition isWhiteSpace (c : ascii) : bool :=
  let n := nat_of_ascii c in
  ((9 <=? n)%nat && (n <=? 13)%nat) || (n =? 32)%nat || (n =? 160)%nat.

Fixpoint trimStart (s : string) : string :=
  match s with
  | EmptyString => EmptyString
  | String c t => if isWhiteSpace c then trimStart t else s
  end.

Fixpoint trimEnd (s : string) : string :=
  match s with
  | EmptyString => EmptyString
  | String c t =>
      match trimEnd t with
      | EmptyString => if isWhiteSpace c then EmptyString else String c EmptyString
      | t' => String c t'
      end
  end.

(** [s.trim()] *)
Definition trim (s : string) : string := trimEnd (trimStart s).

(** Truthiness of a string value: every string but the empty one. *)
Definition truthy (s : string) : bool := negb (String.eqb s "").

(** [parts.join(sep)] *)
Fixpoint join (sep : string) (parts : list string) : string :=
  match parts with
  | [] => ""
  | [p] => p
  | p :: rest => p ++ sep ++ join sep rest
  end.

(** [s.split(sep)] for a one-character separator. *)
Fixpoint split (sep : ascii) (s : string) : list string :=
  match s with
  | EmptyString => [EmptyString]
  | String c t =>
      if Ascii.eqb c sep then EmptyString :: split sep t
      else match split sep t with
           | [] => [String c EmptyString]
           | h :: r => String c h :: r
           end
  end.

(** [Array.from(new Set(l))]: a [Set] keeps insertion order and ignores
    an element already present, so the first occurrence wins. *)
Fixpoint uniqueFrom (seen l : list string) : list string :=
  match l with
  | [] => []
  | x :: r =>
      if bool_decide (x ∈ seen) then uniqueFrom seen r
      else x :: uniqueFrom (x :: seen) r
  end.

Definition unique (l : list string) : list string := uniqueFrom [] l.

End JsString.

(** ** The [path] module

    [join] and [dirname] come from the platform's [path] module (POSIX or
    Windows flavour).  The resolver is stated against this interface; the
    POSIX flavour is given as an instance for running it on concrete
    inputs. *)

Class PathModule := {
  join : list string -> string;
  dirname : string -> string
}.

Module PosixPath.

Definition SLASH : ascii := "/"%char.

(** Resolution of [.] and [..] over the segments between slashes;
    [acc] holds the kept segments, last one first. *)
Fixpoint normalizeSegments (allowAboveRoot : bool) (segs acc : list string)
  : list string :=
  match segs with
  | [] => rev acc
  | s :: r =>
      if String.eqb s "" || String.eqb s "." then
        normalizeSegments allowAboveRoot r acc
      else if String.eqb s ".." then
        match acc with
        | top :: acc' =>
            if String.eqb top ".." then
              normalizeSegments allowAboveRoot r
                (if allowAboveRoot then ".." :: acc else acc)
            else normalizeSegments allowAboveRoot r acc'
        | [] =>
            normalizeSegments allowAboveRoot r
              (if allowAboveRoot then [".."] else [])
        end
      else normalizeSegments allowAboveRoot r (s :: acc)
  end.

Definition endsWithSlash (p : string) : bool :=
  match rev (list_ascii_of_string p) with
  | c :: _ => Ascii.eqb c SLASH
  | [] => false
  end.

Definition normalize (p : string) : string :=
  match p with
  | EmptyString => "."
  | String c0 _ =>
      let isAbsolute := Ascii.eqb c0 SLASH in
      let trailingSeparator := endsWithSlash p in
      let body :=
        JsString.join "/"
          (normalizeSegments (negb isAbsolute) (JsString.split SLASH p) []) in
      if String.eqb body "" then
        if isAbsolute then "/" else if trailingSeparator then "./" else "."
      else
        let body := if trailingSeparator then body ++ "/" else body in
        if isAbsolute then "/" ++ body else body
  end.

Definition join (args : list string) : string :=
  match filter (fun a => JsString.truthy a = true) args with
  | [] => "."
  | parts => normalize (JsString.join "/" parts)
  end.

(** The backward scan of [dirname] over the characters after the first,
    last character first: skip the trailing slashes, skip the base name,
    and keep what precedes the slash found. *)
Fixpoint skipBaseName (r : list ascii) : option (list ascii) :=
  match r with
  | [] => None
  | c :: r' => if Ascii.eqb c SLASH then Some r' else skipBaseName r'
  end.

Fixpoint skipTrailingSlashes (r : list ascii) : option (list ascii) :=
  match r with
  | [] => None
  | c :: r' =>
      if Ascii.eqb c SLASH then skipTrailingSlashes r' else skipBaseName r'
  end.

Definition dirname (p : string) : string :=
  match p with
  | EmptyString => "."
  | String c0 rest =>
      let hasRoot := Ascii.eqb c0 SLASH in
      match skipTrailingSlashes (rev (list_ascii_of_string rest)) with
      | None => if hasRoot then "/" else "."
      | Some kept =>
          if hasRoot && bool_decide (kept = []) then "//"
          else String c0 (string_of_list_ascii (rev kept))
      end
  end.

Definition posix : PathModule := Build_PathModule join dirname.

End PosixPath.

(** ** Effects

    A call leaves a trace of the log lines it wrote, the file-system
    operations it performed and the processes it spawned, and ends by
    returning, by throwing (a rejected promise, for the asynchronous
    functions), or by waiting for ever on a promise that never settles. *)

Record JsError := { message : string }.

Inductive Level := debug | info | warn | error.

Inductive Event :=
| Log (level : Level) (msg : string) (detail : option JsError)
| ExistsSync (p : string)
| Stat (p : string)
| ReadFile (p : string)
| Spawn (command : string) (args : list string).

Inductive Outcome (A : Type) :=
| Return (a : A)
| Throw (e : JsError)
| Pending.
Arguments Return {A} a.
Arguments Throw {A} e.
Arguments Pending {A}.

Definition M (A : Type) : Type := list Event * Outcome A.

Definition ret {A} (a : A) : M A := ([], Return a).

Definition bind {A B} (m : M A) (f : A -> M B) : M B :=
  match m with
  | (tr, Return a) => let '(tr', o) := f a in ((tr ++ tr')%list, o)
  | (tr, Throw e) => (tr, Throw e)
  | (tr, Pending) => (tr, Pending)
  end.

Declare Scope m_scope.
Delimit Scope m_scope with M.
Bind Scope m_scope with M.
Notation "'let!' x ':=' c 'in' k" := (bind c (fun x => k))
  (at level 10, x name, c at level 100, k at level 200) : m_scope.
Notation "c ;; k" := (bind c (fun _ => k))
  (at level 100, k at level 200, right associativity) : m_scope.
Local Open Scope m_scope.

Definition emit (e : Event) : M unit := ([e], Return tt).
Definition throw {A} (e : JsError) : M A := ([], Throw e).
Definition pending {A} : M A := ([], Pending).

(** [try { body } catch (e) { handler }] *)
Definition try_catch {A} (body : M A) (handler : JsError -> M A) : M A :=
  match body with
  | (tr, Throw e) => let '(tr', o) := handler e in ((tr ++ tr')%list, o)
  | r => r
  end.

(** [await] of a settled promise: the value, or the rejection rethrown. *)
Definition await {A} (r : JsError + A) : M A :=
  match r with
  | inr a => ret a
  | inl e => throw e
  end.

(** [l.forEach(body)] where the body updates a captured variable. *)
Fixpoint forEach {A S} (l : list A) (body : A -> S -> M S) (s : S) : M S :=
  match l with
  | [] => ret s
  | x :: r => let! s' := body x s in forEach r body s'
  end.

(** ** The [--version] probe as an event handler

    [validateExecutable] registers listeners on the spawned child and a
    timer; what happens next is a sequence of ticks delivered by the event
    loop.  [Probe] is the state the closures share. *)

Inductive Tick :=
| Close (code : option Z)
| ErrorEvent
| Exit (code : option Z)
| TimerElapsed.

Record Probe := {
  isResolved : bool;          (* the [isResolved] flag *)
  settled : option bool;      (* the value the promise was resolved with *)
  signals : list string;      (* the calls of [process.kill], by signal *)
  timerArmed : bool           (* the timer is neither cleared nor fired *)
}.

Definition spawned : Probe :=
  {| isResolved := false; settled := None; signals := []; timerArmed := true |}.

Definition setResolved (p : Probe) : Probe :=
  {| isResolved := true; settled := settled p;
     signals := signals p; timerArmed := timerArmed p |}.

(** [process.kill(signal)] inside [try { } catch { }]: the call is
    recorded, and whatever [kill] throws is swallowed.  Whether the
    signal reaches the child is not part of the state: on a child that
    has already exited the call returns false and delivers nothing. *)
Definition kill (signal : string) (p : Probe) : Probe :=
  {| isResolved := isResolved p; settled := settled p;
     signals := (signals p ++ [signal])%list; timerArmed := timerArmed p |}.

(** The promise's [resolve]: only the first call settles it. *)
Definition resolve (value : bool) (p : Probe) : Probe :=
  {| isResolved := isResolved p;
     settled := match settled p with Some v => Some v | None => Some value end;
     signals := signals p; timerArmed := timerArmed p |}.

Definition clearTimeout (p : Probe) : Probe :=
  {| isResolved := isResolved p; settled := settled p;
     signals := signals p; timerArmed := false |}.

Definition cleanup (p : Probe) : Probe :=
  if negb (isResolved p) then kill "SIGKILL" (setResolved p) else p.

Definition resolveWith (value : bool) (p : Probe) : Probe :=
  if negb (isResolved p) then resolve value (cleanup (setResolved p)) else p.

(** [code === 0]; the exit code is [null] when a signal ended the child. *)
Definition isZero (code : option Z) : bool :=
  match code with
  | Some c => c =? 0
  | None => false
  end.

(** The listeners of an event run in registration order: the one that
    resolves, then the one that clears the timer.  The timer callback
    runs once, and only if the timer was not cleared before. *)
Definition step (p : Probe) (t : Tick) : Probe :=
  match t with
  | Close code => clearTimeout (resolveWith (isZero code) p)
  | ErrorEvent => clearTimeout (resolveWith false p)
  | Exit code => clearTimeout (resolveWith (isZero code) p)
  | TimerElapsed =>
      if timerArmed p then clearTimeout (resolveWith false p) else p
  end.

Definition run (ticks : list Tick) : Probe := fold_left step ticks spawned.

(** [spawn(command, ...)] checks its arguments before it starts
    anything and throws when the command is the empty string or holds a
    NUL character; thrown inside the executor of [new Promise], that
    rejects the promise.  The error is identified here by its code,
    [ERR_INVALID_ARG_VALUE].  A command that cannot be started (no such
    file, no permission) is not thrown: it arrives as an [error] event,
    one of the ticks of the world. *)
Definition NUL : ascii := "000"%char.

Fixpoint hasNul (s : string) : bool :=
  match s with
  | EmptyString => false
  | String c t => Ascii.eqb c NUL || hasNul t
  end.

Definition spawnThrows (command : string) : bool :=
  negb (JsString.truthy command) || hasNul command.

Definition spawnError : JsError := {| message := "ERR_INVALID_ARG_VALUE" |}.

(** The probe that ships in the compiled [packaging.js], for comparison:
    no flag, and the timer callback calls [process.kill()] (default
    signal [SIGTERM]) before resolving. *)
Module Compiled.
Definition step (p : Probe) (t : Tick) : Probe :=
  match t with
  | Close code => resolve (isZero code) p
  | ErrorEvent => resolve false p
  | Exit _ => p
  | TimerElapsed =>
      if timerArmed p then clearTimeout (resolve false (kill "SIGTERM" p))
      else p
  end.
Definition run (ticks : list Tick) : Probe := fold_left step ticks spawned.
End Compiled.

(** ** The world the module runs in *)

Record Stats := { size : Z }.

Record World := {
  process_platform : string;              (* [process.platform] *)
  process_arch : string;                  (* [process.arch] *)
  process_env_PATH : option string;       (* [process.env.PATH] *)
  process_resourcesPath : string;         (* [process.resourcesPath] *)
  app_isPackaged : bool;                  (* [app.isPackaged] *)
  fs_existsSync : string -> bool;
  fs_stat : string -> JsError + Stats;
  fs_readFile : string -> JsError + string;
  (** what the event loop delivers after [spawn(command, ['--version'])] *)
  child_ticks : string -> list Tick
}.

(** ** The dependency table *)

Record Dependency := {
  name : string;
  executable : string;
  paths : gmap string string
}.

Definition PACKAGED_DEPENDENCIES : list Dependency := [
  {| name := "uv";
     executable := "uv";
     paths := list_to_map [
       ("darwin-arm64", "vendor/uv-darwin-arm64/uv-aarch64-apple-darwin/uv");
       ("darwin-x64", "vendor/uv-darwin-x64/uv-x86_64-apple-darwin/uv");
       ("linux-x64", "vendor/uv-linux-x64/uv-x86_64-unknown-linux-gnu/uv");
       ("win32-x64", "vendor/uv-win32-x64/uv-x86_64-pc-windows-msvc/uv.exe")
     ] |};
  {| name := "node";
     executable := "node";
     paths := list_to_map [
       ("darwin-arm64", "vendor/node-darwin-arm64/node-v20.18.0-darwin-arm64/bin/node");
       ("darwin-x64", "vendor/node-darwin-x64/node-v20.18.0-darwin-x64/bin/node");
       ("linux-x64", "vendor/node-linux-x64/node-v20.18.0-linux-x64/bin/node");
       ("win32-x64", "vendor/node-win32-x64/node-v20.18.0-win-x64/node.exe")
     ] |}
].

(** [dep.paths[archKey]] followed by the truthiness test the callers make:
    a missing key and an empty string both count as "no path".  (The keys
    looked up always contain a hyphen, so no inherited property of the
    object literal is ever hit.) *)
Definition configuredPath (dep : Dependency) (archKey : string) : option string :=
  match paths dep !! archKey with
  | Some relativePath =>
      if JsString.truthy relativePath then Some relativePath else None
  | None => None
  end.

(** The report of [getValidationReport]. *)
Record ReportEntry := { path : option string; available : bool }.

Record Report := {
  platform : string;
  isPackaged : bool;
  dependencies : gmap string ReportEntry
}.

(** Truthiness of a [string | undefined] value. *)
Definition defined (v : option string) : bool :=
  match v with
  | Some s => JsString.truthy s
  | None => false
  end.

Section Packaging.

Context {pathModule : PathModule}.
Variable w : World.

Definition log (level : Level) (msg : string) : M unit :=
  emit (Log level msg None).

Definition logWith (level : Level) (msg : string) (e : JsError) : M unit :=
  emit (Log level msg (Some e)).

Definition existsSync (p : string) : M bool :=
  emit (ExistsSync p) ;; ret (fs_existsSync w p).

Definition stat (p : string) : M Stats :=
  emit (Stat p) ;; await (fs_stat w p).

Definition readFile (p : string) : M string :=
  emit (ReadFile p) ;; await (fs_readFile w p).

Definition getSystemArchKey : string :=
  let platform := process_platform w in
  let arch := process_arch w in
  if String.eqb platform "darwin" then
    if String.eqb arch "arm64" then "darwin-arm64" else "darwin-x64"
  else if String.eqb platform "linux" then "linux-x64"
  else if String.eqb platform "win32" then "win32-x64"
  else platform ++ "-" ++ arch.

(** [join(process.resourcesPath, "app.asar.unpacked", relativePath)] *)
Definition unpacked (relativePath : string) : string :=
  join [process_resourcesPath w; "app.asar.unpacked"; relativePath].

(** The callback of [PACKAGED_DEPENDENCIES.forEach] in
    [buildEnhancedPath]; [pathParts] is the array it unshifts onto. *)
Definition addToPath (archKey : string) (dep : Dependency)
    (pathParts : list string) : M (list string) :=
  match configuredPath dep archKey with
  | Some relativePath =>
      let unpackedPath := unpacked relativePath in
      let binDir := dirname unpackedPath in
      let! found := existsSync unpackedPath in
      if found then
        log debug ("[Packaging] Added " ++ name dep ++ " to PATH: " ++ binDir) ;;
        ret (binDir :: pathParts)
      else
        log warn ("[Packaging] " ++ name dep ++ " not found at: " ++ unpackedPath) ;;
        ret pathParts
  | None => ret pathParts
  end.

(** [pathParts] after the [if (app.isPackaged)] block. *)
Definition collectPathParts (basePath : string) : M (list string) :=
  let archKey := getSystemArchKey in
  if app_isPackaged w then
    forEach PACKAGED_DEPENDENCIES (addToPath archKey) [basePath]
  else ret [basePath].

(** [Array.from(new Set(pathParts.filter(p => p.trim())))] *)
Definition uniquePaths (pathParts : list string) : list string :=
  JsString.unique
    (filter (fun p => JsString.truthy (JsString.trim p) = true) pathParts).

Definition pathSeparator : string :=
  if String.eqb (process_platform w) "win32" then ";" else ":".

(** [process.env.PATH || ""] *)
Definition basePath : string :=
  match process_env_PATH w with
  | Some p => p
  | None => ""
  end.

Definition buildEnhancedPath : M string :=
  let! pathParts := collectPathParts basePath in
  ret (JsString.join pathSeparator (uniquePaths pathParts)).

End Packaging.

Section Resolver.

Context {pathModule : PathModule}.
Variable w : World.

(** The [try] block of [getExecutablePath]: [Some v] when it returns [v]
    from the function, [None] when control falls out of the block. *)
Definition validateVendorFile (executable execPath : string)
  : M (option (option string)) :=
  let! stats := stat w execPath in
  if size stats <? 1000 then
    let! content := readFile w execPath in
    if JsString.startsWith content "#!/bin/bash" || JsString.includes content "echo" then
      log warn ("[Packaging] Vendor " ++ executable
                ++ " is a script, not a binary. Falling back to system "
                ++ executable ++ ".") ;;
      ret (Some (Some executable))
    else ret None
  else ret None.

Definition getExecutablePath (executable : string) : M (option string) :=
  let platform := process_platform w in
  let archKey := getSystemArchKey w in
  if app_isPackaged w then
    match find (fun d => String.eqb (name d) executable) PACKAGED_DEPENDENCIES with
    | None =>
        log error ("[Packaging] Unknown executable: " ++ executable) ;;
        ret None
    | Some dep =>
        match configuredPath dep archKey with
        | None =>
            log error ("[Packaging] No path configured for " ++ executable
                       ++ " on " ++ platform ++ " (" ++ archKey ++ ")") ;;
            ret None
        | Some relativePath =>
            let execPath := unpacked w relativePath in
            let! found := existsSync w execPath in
            if found then
              let! returned :=
                try_catch (validateVendorFile executable execPath)
                  (fun e =>
                     logWith warn ("[Packaging] Failed to validate vendor "
                                   ++ executable ++ ":") e ;;
                     ret (Some (Some executable))) in
              match returned with
              | Some v => ret v
              | None =>
                  log debug ("[Packaging] Found " ++ executable ++ " at: " ++ execPath) ;;
                  ret (Some execPath)
              end
            else
              log warn ("[Packaging] " ++ executable ++ " not found at: " ++ execPath) ;;
              if String.eqb executable "node" then
                log info ("[Packaging] Falling back to system " ++ executable) ;;
                ret (Some executable)
              else ret None
        end
    end
  else ret (Some executable).

(** The promise of [validateExecutable]: the listeners see the child's
    ticks, and the timer, unless cleared, elapses in the end.  When
    [spawn] throws, the executor throws and the promise rejects. *)
Definition probe (executable : string) : Probe :=
  run (child_ticks w executable ++ [TimerElapsed])%list.

Definition validateExecutable (executable : string) : M bool :=
  if spawnThrows executable then throw spawnError
  else
    emit (Spawn executable ["--version"]) ;;
    match settled (probe executable) with
    | Some value => ret value
    | None => pending
    end.

(** The body of the [for (const dep of PACKAGED_DEPENDENCIES)] loop of
    [getValidationReport]; [dependencies] is [report.dependencies]. *)
Definition reportDependency (dep : Dependency)
    (dependencies : gmap string ReportEntry) : M (gmap string ReportEntry) :=
  let! execPath := getExecutablePath (name dep) in
  let! isAvailable := validateExecutable (name dep) in
  let dependencies :=
    <[name dep := {| path := execPath; available := isAvailable |}]> dependencies in
  (if defined execPath && isAvailable then
     log info ("[Validation] " ++ name dep ++ " validated successfully")
   else if defined execPath then
     log warn ("[Validation] " ++ name dep ++ " found but not executable")
   else
     log warn ("[Validation] " ++ name dep ++ " not found")) ;;
  ret dependencies.

Definition getValidationReport : M Report :=
  let! dependencies := forEach PACKAGED_DEPENDENCIES reportDependency ∅ in
  ret {| platform := process_platform w;
         isPackaged := app_isPackaged w;
         dependencies := dependencies |}.

End Resolver.

(** ** Concrete worlds

    A disk maps a path to a file: its size in bytes and what reading it
    yields.  [mkWorld] turns a disk into the three file-system oracles. *)

Record File := { bytes : Z; content : JsError + string }.

Definition ENOENT : JsError := {| message := "ENOENT: no such file or directory" |}.
Definition EACCES : JsError := {| message := "EACCES: permission denied" |}.
Definition ENOSPC : JsError := {| message := "ENOSPC: no space left on device" |}.

Definition textFile (s : string) : File :=
  {| bytes := Z.of_nat (String.length s); content := inr s |}.

Definition binaryFile (n : Z) : File :=
  {| bytes := n; content := inr "" |}.

Definition mkWorld (platform arch : string) (PATH : option string)
    (resourcesPath : string) (packaged : bool)
    (disk : gmap string File) (ticks : string -> list Tick) : World :=
  {| process_platform := platform;
     process_arch := arch;
     process_env_PATH := PATH;
     process_resourcesPath := resourcesPath;
     app_isPackaged := packaged;
     fs_existsSync := fun p => bool_decide (is_Some (disk !! p));
     fs_stat := fun p =>
       match disk !! p with
       | Some f => inr {| size := bytes f |}
       | None => inl ENOENT
       end;
     fs_readFile := fun p =>
       match disk !! p with
       | Some f => content f
       | None => inl ENOENT
       end;
     child_ticks := ticks |}.

Definition LF : ascii := "010"%char.
Definition DQUOTE : ascii := "034"%char.

(** The placeholder of the specification: a bash shebang line followed by
    an [echo] of a quoted [x]. *)
Definition stubContent : string :=
  "#!/bin/bash" ++ String LF ("echo " ++ String DQUOTE ("x" ++ String DQUOTE "")).

Definition nodeLinux : string :=
  "/opt/App/resources/app.asar.unpacked/vendor/node-linux-x64/node-v20.18.0-linux-x64/bin/node".
Definition uvLinux : string :=
  "/opt/App/resources/app.asar.unpacked/vendor/uv-linux-x64/uv-x86_64-unknown-linux-gnu/uv".

Definition exitsWith (code : Z) : string -> list Tick :=
  fun _ => [Exit (Some code); Close (Some code)].

Definition linuxWorld (PATH : option string) (packaged : bool)
    (disk : gmap string File) (ticks : string -> list Tick) : World :=
  mkWorld "linux" "x64" PATH "/opt/App/resources" packaged disk ticks.

(** Every bundle file is in place and large, but nothing runs: each
    probe exits with status 127. *)
Definition bundledButBroken : World :=
  {| process_platform := "linux";
     process_arch := "x64";
     process_env_PATH := Some "/usr/bin";
     process_resourcesPath := "/opt/App/resources";
     app_isPackaged := true;
     fs_existsSync := fun _ => true;
     fs_stat := fun _ => inr {| size := 5000000 |};
     fs_readFile := fun _ => inr "";
     child_ticks := exitsWith 127 |}.

(** No bundle file at all, and every probe exits with status 0. *)
Definition systemOnly : World :=
  {| process_platform := "linux";
     process_arch := "x64";
     process_env_PATH := Some "/usr/bin";
     process_resourcesPath := "/opt/App/resources";
     app_isPackaged := true;
     fs_existsSync := fun _ => false;
     fs_stat := fun _ => inl ENOENT;
     fs_readFile := fun _ => inl ENOENT;
     child_ticks := exitsWith 0 |}.

(** ** The resolver's table lookup, as one function *)

(** The relative path the table declares for [executable] under the
    current platform-arch key: the two look-ups that open
    [getExecutablePath] in packaged mode. *)
Definition declaredPath (w : World) (executable : string) : option string :=
  match find (fun d => String.eqb (name d) executable) PACKAGED_DEPENDENCIES with
  | Some dep => configuredPath dep (getSystemArchKey w)
  | None => None
  end.

(** A validation I/O failure: [stat] rejects, or the file is small and
    [readFile] rejects. *)
Definition validationFails (w : World) (p : string) : Prop :=
  (exists e, fs_stat w p = inl e) \/
  (exists st e, fs_stat w p = inr st /\ size st < 1000 /\ fs_readFile w p = inl e).

Definition readsFile (tr : list Event) : Prop := exists p, In (ReadFile p) tr.

(** The commands a trace spawned, in order. *)
Definition spawnedCommands (tr : list Event) : list string :=
  flat_map (fun e => match e with Spawn command _ => [command] | _ => [] end) tr.

Definition touchesFs (tr : list Event) : Prop :=
  exists p, In (ExistsSync p) tr \/ In (Stat p) tr \/ In (ReadFile p) tr.

(** The keys the table has paths for. *)
Definition SUPPORTED_KEYS : list string :=
  ["darwin-arm64"; "darwin-x64"; "linux-x64"; "win32-x64"].

(** A directory [buildEnhancedPath] prepends: the directory of a bundle
    file the table declares for the current key and that exists. *)
Definition bundleDir {pathModule : PathModule} (w : World) (d : string) : Prop :=
  exists dep rel,
    In dep PACKAGED_DEPENDENCIES
    /\ configuredPath dep (getSystemArchKey w) = Some rel
    /\ fs_existsSync w (unpacked w rel) = true
    /\ d = dirname (unpacked w rel).

(** The directory the [forEach] callback of [buildEnhancedPath] unshifts
    for one dependency: the directory of its bundle file when the table
    has a path for the current key and the file exists, nothing
    otherwise. *)
Definition bundleDirOf {pathModule : PathModule} (w : World) (dep : Dependency)
  : list string :=
  match configuredPath dep (getSystemArchKey w) with
  | Some rel =>
      if fs_existsSync w (unpacked w rel) then [dirname (unpacked w rel)] else []
  | None => []
  end.

(** The parts in front of the inherited PATH: in packaged mode one
    directory per existing bundle file, the last dependency of the table
    first (each [unshift] goes in front); none in development mode. *)
Definition prependedDirs {pathModule : PathModule} (w : World) : list string :=
  if app_isPackaged w
  then flat_map (bundleDirOf w) (rev PACKAGED_DEPENDENCIES)
  else [].

(** The parts that pass [pathParts.filter(p => p.trim())]. *)
Definition nonBlank (pathParts : list string) : list string :=
  filter (fun p => JsString.truthy (JsString.trim p) = true) pathParts.

(** What every reachable probe state satisfies: [process.kill] was
    never called, and a raised flag or a disarmed timer means the promise
    is settled. *)
Definition probeInvariant (p : Probe) : Prop :=
  signals p = []
  /\ (isResolved p = true -> is_Some (settled p))
  /\ (timerArmed p = false -> is_Some (settled p)).

(** A development checkout on Linux, nothing bundled. *)
Definition devWorld : World :=
  linuxWorld (Some "/usr/local/bin:/usr/bin") false ∅ (exitsWith 0).

(** A development checkout whose PATH is a single space. *)
Definition blankPathWorld : World :=
  linuxWorld (Some " ") false ∅ (exitsWith 0).

(** A development checkout whose PATH lists one directory twice. *)
Definition repeatedPathWorld : World :=
  linuxWorld (Some "/usr/bin:/usr/bin") false ∅ (exitsWith 0).

(** A packaged build holding a 5 MB [node] binary. *)
Definition binaryWorld : World :=
  linuxWorld (Some "/usr/bin") true {[ nodeLinux := binaryFile 5000000 ]} (exitsWith 0).

(** The same build started with no PATH in the environment. *)
Definition noPathWorld : World :=
  linuxWorld None true {[ nodeLinux := binaryFile 5000000 ]} (exitsWith 0).

(** A packaged build whose [node] is the placeholder script. *)
Definition stubWorld : World :=
  linuxWorld (Some "/usr/bin") true {[ nodeLinux := textFile stubContent ]} (exitsWith 0).

(** A packaged build whose [node] is a seven-byte file with an [echo] and
    no shebang line. *)
Definition echoWorld : World :=
  linuxWorld (Some "/usr/bin") true {[ nodeLinux := textFile "echo hi" ]} (exitsWith 0).

(** A packaged build whose small [node] file cannot be read. *)
Definition unreadableWorld : World :=
  linuxWorld (Some "/usr/bin") true
    {[ nodeLinux := {| bytes := 20; content := inl EACCES |} ]} (exitsWith 0).

(** A packaged build with nothing under [vendor/]. *)
Definition emptyBundleWorld : World :=
  linuxWorld (Some "/usr/bin") true ∅ (exitsWith 0).

(** The specification's scenario: Apple silicon, packaged, a 5 MB [node]
    binary at the declared path. *)
Definition nodeDarwin : string :=
  "/Applications/AICowork.app/Contents/Resources/app.asar.unpacked/vendor/node-darwin-arm64/node-v20.18.0-darwin-arm64/bin/node".

Definition darwinWorld : World :=
  mkWorld "darwin" "arm64" (Some "/usr/bin:/bin")
    "/Applications/AICowork.app/Contents/Resources" true
    {[ nodeDarwin := binaryFile 5242880 ]} (exitsWith 0).

(** A host the table does not know. *)
Definition freebsdWorld : World :=
  mkWorld "freebsd" "x64" (Some "/usr/bin") "/opt/App/resources" true ∅ (exitsWith 0).

Definition nodeLinuxRelative : string :=
  "vendor/node-linux-x64/node-v20.18.0-linux-x64/bin/node".

Definition nodeLinuxDir : string :=
  "/opt/App/resources/app.asar.unpacked/vendor/node-linux-x64/node-v20.18.0-linux-x64/bin".

(** ** The rest of the module: availability map and launch options *)

(** The options [getSDKExecutableOptions] hands to the SDK launcher. *)
Record SdkOptions := {
  options_executable : option string;     (* [options.executable] *)
  options_env : gmap string string        (* [options.env] *)
}.

(** [process.env]: the PATH of the world beside the other inherited
    variables. *)
Definition processEnv (w : World) (inherited : gmap string string)
  : gmap string string :=
  match process_env_PATH w with
  | Some p => <["PATH" := p]> inherited
  | None => delete "PATH" inherited
  end.

Section LaunchOptions.

Context {pathModule : PathModule}.
Variable w : World.

(** The body of the loop of [validatePackagedDependencies]; [results] is
    the record it fills. *)
Definition validateDependency (dep : Dependency) (results : gmap string bool)
  : M (gmap string bool) :=
  let! path := getExecutablePath w (name dep) in
  let results := <[name dep := defined path]> results in
  (match path with
   | Some p =>
       if JsString.truthy p then
         log info ("[Packaging] " ++ name dep ++ " is available at: " ++ p)
       else log warn ("[Packaging] " ++ name dep ++ " is not available")
   | None => log warn ("[Packaging] " ++ name dep ++ " is not available")
   end) ;;
  ret results.

Definition validatePackagedDependencies : M (gmap string bool) :=
  forEach PACKAGED_DEPENDENCIES validateDependency ∅.

Definition getSDKExecutableOptions (inherited : gmap string string)
  : M SdkOptions :=
  let! nodePath := getExecutablePath w "node" in
  let! executable :=
    (if defined nodePath then
       log info "[Packaging] Using node as SDK executable" ;;
       ret (Some "node")
     else
       log warn "[Packaging] node not found, will use system node" ;;
       ret None) in
  let! enhancedPath := buildEnhancedPath w in
  let env := <["PATH" := enhancedPath]> (processEnv w inherited) in
  let! uvPath := getExecutablePath w "uv" in
  let env :=
    if defined uvPath then <["UV_PYTHON_PREFERENCE" := "only-system"]> env
    else env in
  ret {| options_executable := executable; options_env := env |}.

End LaunchOptions.

(** ** Decision tables read off the resolver *)

(** What a declared dependency resolves to in packaged mode, as a
    function of the three file-system answers for its bundle path. *)
Definition resolution {pathModule : PathModule} (w : World)
    (executable rel : string) : option string :=
  let execPath := unpacked w rel in
  if fs_existsSync w execPath then
    match fs_stat w execPath with
    | inl _ => Some executable
    | inr stats =>
        if size stats <? 1000 then
          match fs_readFile w execPath with
          | inl _ => Some executable
          | inr content =>
              if JsString.startsWith content "#!/bin/bash"
                 || JsString.includes content "echo"
              then Some executable else Some execPath
          end
        else Some execPath
    end
  else if String.eqb executable "node" then Some executable else None.

(** What [getExecutablePath] resolves a name to, in either mode. *)
Definition resolved {pathModule : PathModule} (w : World)
    (executable : string) : option string :=
  if app_isPackaged w then
    match declaredPath w executable with
    | Some rel => resolution w executable rel
    | None => None
    end
  else Some executable.

(** The verdict a first tick gives the probe. *)
Definition verdict (t : Tick) : bool :=
  match t with
  | Close code => isZero code
  | Exit code => isZero code
  | ErrorEvent => false
  | TimerElapsed => false
  end.

(** The tick is the timer's. *)
Definition isTimer (t : Tick) : bool :=
  match t with
  | TimerElapsed => true
  | _ => false
  end.

(** The file-system operations of a trace, in order. *)
Definition fsEvents (tr : list Event) : list Event :=
  flat_map (fun e => match e with
                     | ExistsSync _ | Stat _ | ReadFile _ => [e]
                     | _ => []
                     end) tr.

(** ** The earlier revision of the module

    The revision kept beside the current one: three dependencies keyed by
    platform alone, [bun] preferred over [node], and the probe whose
    timer callback kills the child ([Compiled]; the same probe is in
    [packaging.js]).  [dep.paths[platform]] is modelled as a look-up
    among the table's own keys: [process.platform] is one of Node's
    platform identifiers, none of which names a property that an object
    literal inherits. *)

Module BunRevision.

Definition PACKAGED_DEPENDENCIES : list Dependency := [
  {| name := "bun";
     executable := "bun";
     paths := list_to_map [
       ("darwin", "vendor/bun-darwin-aarch64/bun");
       ("linux", "vendor/bun-linux-x64/bun");
       ("win32", "vendor/bun-windows-x64/bun.exe")
     ] |};
  {| name := "uv";
     executable := "uv";
     paths := list_to_map [
       ("darwin", "vendor/uv-darwin-aarch64/uv");
       ("linux", "vendor/uv-linux-x64/uv");
       ("win32", "vendor/uv-windows-x64/uv.exe")
     ] |};
  {| name := "node";
     executable := "node";
     paths := list_to_map [
       ("darwin", "vendor/node-darwin-aarch64/bin/node");
       ("linux", "vendor/node-linux-x64/bin/node");
       ("win32", "vendor/node-windows-x64/node.exe")
     ] |}
].

Section Functions.

Context {pathModule : PathModule}.
Variable w : World.

Definition buildEnhancedPath : M string :=
  let platform := process_platform w in
  let! pathParts :=
    (if app_isPackaged w then
       forEach PACKAGED_DEPENDENCIES (addToPath w platform) [basePath w]
     else ret [basePath w]) in
  ret (JsString.join (pathSeparator w) (uniquePaths pathParts)).

Definition getExecutablePath (executable : string) : M (option string) :=
  let platform := process_platform w in
  if app_isPackaged w then
    match find (fun d => String.eqb (name d) executable) PACKAGED_DEPENDENCIES with
    | None =>
        log error ("[Packaging] Unknown executable: " ++ executable) ;;
        ret None
    | Some dep =>
        match configuredPath dep platform with
        | None =>
            log error ("[Packaging] No path configured for " ++ executable
                       ++ " on " ++ platform) ;;
            ret None
        | Some relativePath =>
            let execPath := unpacked w relativePath in
            let! found := existsSync w execPath in
            if found then
              let! returned :=
                try_catch (validateVendorFile w executable execPath)
                  (fun e =>
                     logWith warn ("[Packaging] Failed to validate vendor "
                                   ++ executable ++ ":") e ;;
                     ret (Some (Some executable))) in
              match returned with
              | Some v => ret v
              | None =>
                  log debug ("[Packaging] Found " ++ executable ++ " at: " ++ execPath) ;;
                  ret (Some execPath)
              end
            else
              log warn ("[Packaging] " ++ executable ++ " not found at: " ++ execPath) ;;
              if String.eqb executable "node" || String.eqb executable "bun" then
                log info ("[Packaging] Falling back to system " ++ executable) ;;
                ret (Some executable)
              else ret None
        end
    end
  else ret (Some executable).

(** The promise of this revision's [validateExecutable]: nothing clears
    its timer, so it elapses whatever the child did.  When [spawn]
    throws, the executor throws and the promise rejects. *)
Definition validateExecutable (executable : string) : M bool :=
  if spawnThrows executable then throw spawnError
  else
    emit (Spawn executable ["--version"]) ;;
    match settled (Compiled.run (child_ticks w executable ++ [TimerElapsed])%list) with
    | Some value => ret value
    | None => pending
    end.

Definition getSDKExecutableOptions (inherited : gmap string string)
  : M SdkOptions :=
  let! bunPath := getExecutablePath "bun" in
  let! executable :=
    (if defined bunPath then
       log info "[Packaging] Using bun as SDK executable" ;;
       ret (Some "bun")
     else
       let! nodePath := getExecutablePath "node" in
       if defined nodePath then
         log info "[Packaging] Using node as SDK executable" ;;
         ret (Some "node")
       else ret None) in
  let! enhancedPath := buildEnhancedPath in
  let env := <["PATH" := enhancedPath]> (processEnv w inherited) in
  let env :=
    match bunPath with
    | Some p => if JsString.truthy p then <["BUN_INSTALL" := dirname p]> env else env
    | None => env
    end in
  let! uvPath := getExecutablePath "uv" in
  let env :=
    if defined uvPath then <["UV_PYTHON_PREFERENCE" := "only-system"]> env
    else env in
  ret {| options_executable := executable; options_env := env |}.

(** The two table look-ups that open [getExecutablePath]. *)
Definition declaredPath (executable : string) : option string :=
  match find (fun d => String.eqb (name d) executable) PACKAGED_DEPENDENCIES with
  | Some dep => configuredPath dep (process_platform w)
  | None => None
  end.

(** What a declared dependency resolves to in packaged mode. *)
Definition resolution (executable rel : string) : option string :=
  let execPath := unpacked w rel in
  if fs_existsSync w execPath then
    match fs_stat w execPath with
    | inl _ => Some executable
    | inr stats =>
        if size stats <? 1000 then
          match fs_readFile w execPath with
          | inl _ => Some executable
          | inr content =>
              if JsString.startsWith content "#!/bin/bash"
                 || JsString.includes content "echo"
              then Some executable else Some execPath
          end
        else Some execPath
    end
  else if String.eqb executable "node" || String.eqb executable "bun"
       then Some executable else None.

Definition resolved (executable : string) : option string :=
  if app_isPackaged w then
    match declaredPath executable with
    | Some rel => resolution executable rel
    | None => None
    end
  else Some executable.

End Functions.

End BunRevision.

(** The verdict a tick gives the earlier probe, which has no listener
    for [exit]: [None] when the tick settles nothing. *)
Definition compiledVerdict (t : Tick) : option bool :=
  match t with
  | Close code => Some (isZero code)
  | ErrorEvent => Some false
  | Exit _ => None
  | TimerElapsed => Some false
  end.

(** The first verdict a sequence of ticks gives the earlier probe. *)
Fixpoint firstVerdict (ticks : list Tick) : option bool :=
  match ticks with
  | [] => None
  | t :: later =>
      match compiledVerdict t with
      | Some value => Some value
      | None => firstVerdict later
      end
  end.

(** ** The environment file (src/electron/libs/env-file.ts)

    The user's API configuration is kept in a [.env] file of the
    application's user-data directory.  The disk holds that one file; the
    faults say which file-system call, if any, throws.  The non-ASCII
    text of the fixed comment lines and of the error prefix is carried as
    its UTF-8 bytes; the parser looks only at the first character of a
    comment line. *)

Module EnvFile.

Definition SQUOTE : ascii := "039"%char.
Definition CR : ascii := "013"%char.
Definition EQUALS : ascii := "="%char.

Definition isQuote (c : ascii) : bool :=
  Ascii.eqb c SQUOTE || Ascii.eqb c DQUOTE.

(** The characters [.] of a regular expression does not match. *)
Definition isLineTerminator (c : ascii) : bool :=
  Ascii.eqb c LF || Ascii.eqb c CR.

Fixpoint noLineTerminator (s : string) : bool :=
  match s with
  | EmptyString => true
  | String c t => negb (isLineTerminator c) && noLineTerminator t
  end.

(** The text before the first [=] and the text after it. *)
Fixpoint breakAtEquals (s : string) : option (string * string) :=
  match s with
  | EmptyString => None
  | String c t =>
      if Ascii.eqb c EQUALS then Some (EmptyString, t)
      else match breakAtEquals t with
           | Some (key, value) => Some (String c key, value)
           | None => None
           end
  end.

(** The match of a trimmed line against the assignment pattern (one or
    more characters other than [=], then [=], then any characters but line
    terminators up to the end): its two groups.  The first group stops at
    the first [=] and must not be empty; the second must reach the end of
    the string without meeting a line terminator. *)
Definition matchAssignment (s : string) : option (string * string) :=
  match breakAtEquals s with
  | Some (key, value) =>
      if JsString.truthy key && noLineTerminator value then Some (key, value)
      else None
  | None => None
  end.

Definition dropLeadingQuote (s : string) : string :=
  match s with
  | EmptyString => EmptyString
  | String c t => if isQuote c then t else s
  end.

Fixpoint dropTrailingQuote (s : string) : string :=
  match s with
  | EmptyString => EmptyString
  | String c t =>
      match t with
      | EmptyString => if isQuote c then EmptyString else s
      | _ => String c (dropTrailingQuote t)
      end
  end.

(** The global replace that removes a single or double quote standing
    at the start or at the end: a quote at the start goes, and a quote at
    the end of what is left goes. *)
Definition stripQuotes (s : string) : string :=
  dropTrailingQuote (dropLeadingQuote s).

(** [envVars[key] = value] on an object literal: the assignment to
    [__proto__] of a string changes nothing. *)
Definition setProperty (key value : string) (envVars : gmap string string)
  : gmap string string :=
  if String.eqb key "__proto__" then envVars else <[key := value]> envVars.

(** The body of the [for (const line of lines)] loop of [readEnvFile]. *)
Definition parseLine (envVars : gmap string string) (line : string)
  : gmap string string :=
  let trimmedLine := JsString.trim line in
  if negb (JsString.truthy trimmedLine) || JsString.startsWith trimmedLine "#"
  then envVars
  else
    match matchAssignment trimmedLine with
    | Some (key, value) =>
        let cleanValue := stripQuotes (JsString.trim value) in
        setProperty (JsString.trim key) cleanValue envVars
    | None => envVars
    end.

Definition parseEnv (content : string) : gmap string string :=
  fold_left parseLine (JsString.split LF content) ∅.

Record Disk := {
  userDataExists : bool;          (* the user-data directory exists *)
  envFile : option string         (* the content of [.env], if it exists *)
}.

(** How [writeFileSync] fails.  It opens the file with flag [w], which
    creates or truncates it, and then writes: a failure of the open
    leaves the file as it was; a failure after the open leaves the
    characters of the new content that were written before it. *)
Inductive WriteFailure :=
| FailsAtOpen (e : JsError)
| FailsAfterOpen (written : nat) (e : JsError).

Record Faults := {
  readFault : option JsError;     (* what [readFileSync] throws *)
  mkdirFault : option JsError;    (* what [mkdirSync] throws *)
  writeFault : option WriteFailure  (* how [writeFileSync] fails *)
}.

Definition noFaults : Faults :=
  {| readFault := None; mkdirFault := None; writeFault := None |}.

Definition readEnvFile (f : Faults) (d : Disk) : M (gmap string string) :=
  match envFile d with
  | None =>
      log debug "[env-file] .env file does not exist, returning empty object" ;;
      ret ∅
  | Some stored =>
      try_catch
        (let! content :=
           (match readFault f with
            | Some e => throw e
            | None => ret stored
            end) in
         let envVars := parseEnv content in
         log debug "[env-file] Loaded environment variables:" ;;
         ret envVars)
        (fun e =>
           logWith error "[env-file] Failed to read .env file:" e ;;
           ret ∅)
  end.

(** The lines pushed for one variable, when it is set and not empty. *)
Definition entry (envVars : gmap string string) (key comment : string)
  : list string :=
  match envVars !! key with
  | Some value =>
      if JsString.truthy value then [comment; key ++ "=" ++ value; ""] else []
  | None => []
  end.

Definition envLines (envVars : gmap string string) : list string :=
  (["# AICowork API 配置"; "# 自动生成，请勿手动编辑"; ""]
   ++ entry envVars "ANTHROPIC_AUTH_TOKEN" "# Anthropic API Key"
   ++ entry envVars "ANTHROPIC_BASE_URL" "# API Base URL"
   ++ entry envVars "ANTHROPIC_MODEL" "# 默认模型"
   ++ entry envVars "ANTHROPIC_API_TYPE" "# API 厂商类型")%list.

(** The [catch] block of [writeEnvFile]. *)
Definition writeFailed (e : JsError) : M unit :=
  logWith error "[env-file] Failed to write .env file:" e ;;
  throw {| message := "保存环境变量文件失败: " ++ message e |}.

Definition writeEnvFile (f : Faults) (envVars : gmap string string) (d : Disk)
  : Disk * M unit :=
  match (if userDataExists d then None else mkdirFault f) with
  | Some e => (d, writeFailed e)
  | None =>
      let d := {| userDataExists := true; envFile := envFile d |} in
      let lines := envLines envVars in
      match writeFault f with
      | Some (FailsAtOpen e) => (d, writeFailed e)
      | Some (FailsAfterOpen written e) =>
          ({| userDataExists := true;
              envFile := Some (String.substring 0 written
                                 (JsString.join (String LF "") lines)) |},
           writeFailed e)
      | None =>
          ({| userDataExists := true;
              envFile := Some (JsString.join (String LF "") lines) |},
           log info "[env-file] Environment variables saved to .env file")
      end
  end.

Record ApiConfig := {
  apiKey : string;
  baseURL : string;
  model : string;
  apiType : option string
}.

Definition loadApiConfigFromEnv (f : Faults) (d : Disk) : M (option ApiConfig) :=
  let! envVars := readEnvFile f d in
  if negb (defined (envVars !! "ANTHROPIC_AUTH_TOKEN"))
     || negb (defined (envVars !! "ANTHROPIC_BASE_URL"))
     || negb (defined (envVars !! "ANTHROPIC_MODEL"))
  then
    log debug "[env-file] Incomplete configuration in .env file" ;;
    ret None
  else
    ret (Some {| apiKey := default "" (envVars !! "ANTHROPIC_AUTH_TOKEN");
                 baseURL := default "" (envVars !! "ANTHROPIC_BASE_URL");
                 model := default "" (envVars !! "ANTHROPIC_MODEL");
                 apiType :=
                   Some (if defined (envVars !! "ANTHROPIC_API_TYPE")
                         then default "" (envVars !! "ANTHROPIC_API_TYPE")
                         else "anthropic") |}).

Definition saveApiConfigToEnv (f : Faults) (config : ApiConfig) (d : Disk)
  : Disk * M unit :=
  let envVars : gmap string string :=
    <["ANTHROPIC_MODEL" := model config]>
      (<["ANTHROPIC_BASE_URL" := baseURL config]>
         (<["ANTHROPIC_AUTH_TOKEN" := apiKey config]> ∅)) in
  let envVars :=
    if defined (apiType config)
    then <["ANTHROPIC_API_TYPE" := default "" (apiType config)]> envVars
    else envVars in
  writeEnvFile f envVars d.

(** The variables [writeEnvFile] knows. *)
Definition KNOWN_KEYS : list string :=
  ["ANTHROPIC_AUTH_TOKEN"; "ANTHROPIC_BASE_URL"; "ANTHROPIC_MODEL";
   "ANTHROPIC_API_TYPE"].

Fixpoint lastChar (s : string) : option ascii :=
  match s with
  | EmptyString => None
  | String c t =>
      match t with
      | EmptyString => Some c
      | _ => lastChar t
      end
  end.

Definition plain (c : ascii) : bool :=
  negb (JsString.isWhiteSpace c) && negb (isQuote c).

(** A value that survives the file: not empty, on one line, and neither
    starting nor ending with white space or a quote.  It may contain
    [=], [#], inner blanks and inner quotes. *)
Definition clean (v : string) : bool :=
  match v with
  | EmptyString => false
  | String c _ => plain c
  end
  && match lastChar v with
     | Some c => plain c
     | None => false
     end
  && noLineTerminator v.

(** A key a line can assign: not empty, no [=], not starting with white
    space or [#], not ending with white space. *)
Definition validKey (k : string) : bool :=
  match k with
  | EmptyString => false
  | String c _ => negb (JsString.isWhiteSpace c) && negb (Ascii.eqb c "#")
  end
  && match lastChar k with
     | Some c => negb (JsString.isWhiteSpace c)
     | None => false
     end
  && match breakAtEquals k with
     | Some _ => false
     | None => true
     end.

End EnvFile.

(** The string holds no line feed. *)
Fixpoint singleLine (s : string) : bool :=
  match s with
  | EmptyString => true
  | String c t => negb (Ascii.eqb c LF) && singleLine t
  end.

(** What survives a write followed by a read: the variable, when it is
    one [writeEnvFile] knows and its value is not empty. *)
Definition kept (envVars : gmap string string) (k : string) : option string :=
  if bool_decide (k ∈ EnvFile.KNOWN_KEYS) then
    match envVars !! k with
    | Some v => if JsString.truthy v then Some v else None
    | None => None
    end
  else None.

(** A value [writeEnvFile] can store faithfully: empty, or clean. *)
Definition storable (v : string) : Prop := v = "" \/ EnvFile.clean v = true.

(** One variable's lines, parsed: the variable is set when it has a
    non-empty value. *)
Definition put (envVars : gmap string string) (k : string)
    (m : gmap string string) : gmap string string :=
  match envVars !! k with
  | Some v => if JsString.truthy v then <[k := v]> m else m
  | None => m
  end.

(** ** Inputs for the further properties *)

Definition uvLinuxRelative : string :=
  "vendor/uv-linux-x64/uv-x86_64-unknown-linux-gnu/uv".

Definition bunLinuxRelative : string := "vendor/bun-linux-x64/bun".

(** A first-run disk: no user-data directory, no file. *)
Definition freshDisk : EnvFile.Disk :=
  {| EnvFile.userDataExists := false; EnvFile.envFile := None |}.

(** A disk whose file holds one assignment. *)
Definition usedDisk : EnvFile.Disk :=
  {| EnvFile.userDataExists := true;
     EnvFile.envFile := Some "ANTHROPIC_MODEL=old" |}.

Definition readOnlyDisk : EnvFile.Faults :=
  {| EnvFile.readFault := None;
     EnvFile.mkdirFault := None;
     EnvFile.writeFault := Some (EnvFile.FailsAtOpen EACCES) |}.

(** A disk that fills up after ten characters of a write. *)
Definition fullDisk : EnvFile.Faults :=
  {| EnvFile.readFault := None;
     EnvFile.mkdirFault := None;
     EnvFile.writeFault := Some (EnvFile.FailsAfterOpen 10 ENOSPC) |}.

(** A key with base64 padding, a URL, a model name, no API type. *)
Definition sampleConfig : EnvFile.ApiConfig :=
  {| EnvFile.apiKey := "sk-YWJjZA==";
     EnvFile.baseURL := "https://api.example.com/v1";
     EnvFile.model := "glm-4 plus";
     EnvFile.apiType := None |}.

(** A record with a known variable, an empty one and an unknown one. *)
Definition sampleVars : gmap string string :=
  <["ANTHROPIC_AUTH_TOKEN" := "sk-YWJjZA=="]>
    (<["ANTHROPIC_MODEL" := ""]>
       (<["HTTP_PROXY" := "http://127.0.0.1:7890"]> ∅)).

(** * Properties *)

(** ** The model on concrete inputs *)

Example startsWith_ex : JsString.startsWith "#!/bin/bash -e" "#!/bin/bash" = true.
Proof. reflexivity. Qed.

Example includes_ex : JsString.includes "printf; echo hi" "echo" = true.
Proof. reflexivity. Qed.

Example trim_ex : JsString.trim "  a b  " = "a b".
Proof. reflexivity. Qed.

Example split_ex : JsString.split ":" "/a:/b::" = ["/a"; "/b"; ""; ""].
Proof. reflexivity. Qed.

Example unique_ex : JsString.unique ["a"; "b"; "a"; "c"; "b"] = ["a"; "b"; "c"].
Proof. reflexivity. Qed.

Example posix_join_ex :
  PosixPath.join ["/Applications/App/Resources"; "app.asar.unpacked"; "vendor/uv-linux-x64/uv"]
  = "/Applications/App/Resources/app.asar.unpacked/vendor/uv-linux-x64/uv".
Proof. reflexivity. Qed.

Example posix_join_dots : PosixPath.join ["/a/b/"; "../c"; "./d/"] = "/a/c/d/".
Proof. reflexivity. Qed.

Example posix_dirname_ex : PosixPath.dirname "/r/vendor/node/bin/node" = "/r/vendor/node/bin".
Proof. reflexivity. Qed.

Example posix_dirname_root : PosixPath.dirname "/node" = "/".
Proof. reflexivity. Qed.

Example posix_dirname_bare : PosixPath.dirname "node" = ".".
Proof. reflexivity. Qed.

Example resolve_stub :
  snd (@getExecutablePath PosixPath.posix
         (linuxWorld (Some "/usr/bin") true {[ nodeLinux := textFile stubContent ]} (exitsWith 0))
         "node")
  = Return (Some "node").
Proof. vm_compute. reflexivity. Qed.

Example resolve_binary :
  snd (@getExecutablePath PosixPath.posix
         (linuxWorld (Some "/usr/bin") true {[ nodeLinux := binaryFile 5000000 ]} (exitsWith 0))
         "node")
  = Return (Some nodeLinux).
Proof. vm_compute. reflexivity. Qed.

Example resolve_missing_uv :
  snd (@getExecutablePath PosixPath.posix
         (linuxWorld (Some "/usr/bin") true ∅ (exitsWith 0)) "uv")
  = Return None.
Proof. vm_compute. reflexivity. Qed.

Example enhanced_path_binary :
  snd (@buildEnhancedPath PosixPath.posix
         (linuxWorld (Some "/usr/bin") true {[ nodeLinux := binaryFile 5000000 ]} (exitsWith 0)))
  = Return "/opt/App/resources/app.asar.unpacked/vendor/node-linux-x64/node-v20.18.0-linux-x64/bin:/usr/bin".
Proof. vm_compute. reflexivity. Qed.


(** ** The keys of the table *)

(** Consume the platform string one character at a time against a
    concrete key. *)
Ltac peel H p :=
  repeat (destruct p as [|? p]; cbn in H;
          [ first [discriminate H | congruence]
          | first [ discriminate H
                  | let Hc := fresh "Hc" in injection H as Hc H; subst ] ]).

Lemma raw_key_unsupported (platform arch : string) :
  platform <> "darwin" -> platform <> "linux" -> platform <> "win32" ->
  ~ In (platform ++ "-" ++ arch) SUPPORTED_KEYS.
Proof.
  intros Hd Hl Hw Hin. unfold SUPPORTED_KEYS in Hin. cbn [In] in Hin.
  destruct Hin as [H|[H|[H|[H|[]]]]]; symmetry in H; peel H platform.
Qed.

Lemma paths_keys (dep : Dependency) (key : string) :
  In dep PACKAGED_DEPENDENCIES -> ~ In key SUPPORTED_KEYS ->
  paths dep !! key = None.
Proof.
  intros Hdep Hkey.
  assert (Hne : forall k, In k SUPPORTED_KEYS -> k <> key) by congruence.
  unfold SUPPORTED_KEYS in Hne. cbn [In] in Hne.
  destruct Hdep as [<-|[<-|[]]]; cbn;
    rewrite !lookup_insert_ne by (apply Hne; tauto); apply lookup_empty.
Qed.

Lemma paths_supported (dep : Dependency) (key : string) :
  In dep PACKAGED_DEPENDENCIES -> In key SUPPORTED_KEYS ->
  exists rel, configuredPath dep key = Some rel.
Proof.
  intros Hdep Hkey. unfold SUPPORTED_KEYS in Hkey. cbn [In] in Hkey.
  destruct Hdep as [<-|[<-|[]]];
    destruct Hkey as [<-|[<-|[<-|[<-|[]]]]]; eexists; vm_compute; reflexivity.
Qed.

(** ** First-occurrence deduplication *)

Lemma uniqueFrom_elem (l seen : list string) (x : string) :
  x ∈ JsString.uniqueFrom seen l <-> x ∈ l /\ x ∉ seen.
Proof.
  revert seen. induction l as [|y l IH]; intros seen; cbn.
  - rewrite elem_of_nil. tauto.
  - case_bool_decide as Hy.
    + rewrite IH, elem_of_cons. split; [tauto|].
      intros [[->|Hx] Hns]; tauto.
    + rewrite !elem_of_cons, IH, elem_of_cons.
      destruct (decide (x = y)) as [->|Hne]; tauto.
Qed.

Lemma uniqueFrom_NoDup (l seen : list string) :
  NoDup (JsString.uniqueFrom seen l).
Proof.
  revert seen. induction l as [|y l IH]; intros seen; cbn.
  - constructor.
  - case_bool_decide as Hy; [apply IH|].
    apply NoDup_cons. split; [|apply IH].
    rewrite uniqueFrom_elem, elem_of_cons. tauto.
Qed.

Lemma uniqueFrom_snoc (l seen : list string) (b : string) :
  b ∉ l -> b ∉ seen ->
  JsString.uniqueFrom seen (l ++ [b])%list = (JsString.uniqueFrom seen l ++ [b])%list.
Proof.
  revert seen. induction l as [|y l IH]; intros seen Hl Hs; cbn.
  - rewrite bool_decide_eq_false_2 by exact Hs. reflexivity.
  - rewrite not_elem_of_cons in Hl. destruct Hl as [Hne Hl].
    case_bool_decide as Hy.
    + apply IH; assumption.
    + cbn. f_equal. apply IH; [assumption|].
      rewrite not_elem_of_cons. tauto.
Qed.

Section Properties.

Context {pathModule : PathModule}.

Local Arguments String.append : simpl never.

(** ** Development mode *)

(** C6: with the packaged flag off, [getExecutablePath] returns the bare
    command name it was given, whatever the file system holds, and its
    trace is empty: no file-system operation (nor log line) happens. *)
Theorem getExecutablePath_development (w : World) (executable : string) :
  app_isPackaged w = false ->
  getExecutablePath w executable = ([], Return (Some executable))
  /\ ~ touchesFs (fst (getExecutablePath w executable)).
Proof.
  intros Hdev. unfold getExecutablePath. rewrite Hdev. split; [reflexivity|].
  intros [p [H | [H | H]]]; inversion H.
Qed.

(** ** Packaged mode: unfolding the table look-up *)

Lemma getExecutablePath_declared (w : World) (executable rel : string) :
  app_isPackaged w = true ->
  declaredPath w executable = Some rel ->
  getExecutablePath w executable =
    (let execPath := unpacked w rel in
     let! found := existsSync w execPath in
     if found then
       let! returned :=
         try_catch (validateVendorFile w executable execPath)
           (fun e =>
              logWith warn ("[Packaging] Failed to validate vendor "
                            ++ executable ++ ":") e ;;
              ret (Some (Some executable))) in
       match returned with
       | Some v => ret v
       | None =>
           log debug ("[Packaging] Found " ++ executable ++ " at: " ++ execPath) ;;
           ret (Some execPath)
       end
     else
       log warn ("[Packaging] " ++ executable ++ " not found at: " ++ execPath) ;;
       if String.eqb executable "node" then
         log info ("[Packaging] Falling back to system " ++ executable) ;;
         ret (Some executable)
       else ret None).
Proof.
  intros Hpk Hdecl. unfold getExecutablePath, declaredPath in *. rewrite Hpk.
  destruct (find _ _) as [dep|]; [|discriminate].
  rewrite Hdecl. reflexivity.
Qed.

(** C5: in packaged mode, a bundle file that exists at the expected path
    and whose size is at least the 1000-byte threshold is returned as
    that absolute path, and the trace holds no read of any file. *)
Theorem getExecutablePath_large_file (w : World) (executable rel : string) (n : Z) :
  app_isPackaged w = true ->
  declaredPath w executable = Some rel ->
  fs_existsSync w (unpacked w rel) = true ->
  fs_stat w (unpacked w rel) = inr {| size := n |} ->
  1000 <= n ->
  snd (getExecutablePath w executable) = Return (Some (unpacked w rel))
  /\ ~ readsFile (fst (getExecutablePath w executable)).
Proof.
  intros Hpk Hdecl Hex Hst Hn.
  rewrite (getExecutablePath_declared _ _ _ Hpk Hdecl).
  unfold existsSync, validateVendorFile, stat. cbn.
  rewrite Hex, Hst. cbn.
  destruct (Z.ltb_spec n 1000) as [Hlt|_]; [lia|]. cbn.
  split; [reflexivity|].
  intros [p Hin]. cbn in Hin.
  repeat destruct Hin as [Hin|Hin]; try discriminate; contradiction.
Qed.

(** What a declared dependency resolves to in packaged mode, over every
    file-system state: the shared case analysis of the resolver. *)
Lemma getExecutablePath_declared_cases (w : World) (executable rel : string) :
  app_isPackaged w = true ->
  declaredPath w executable = Some rel ->
  exists tr r,
    getExecutablePath w executable = (tr, Return r)
    /\ (r = Some (unpacked w rel) \/ r = Some executable
        \/ (r = None /\ fs_existsSync w (unpacked w rel) = false
                     /\ executable <> "node"))
    /\ (fs_existsSync w (unpacked w rel) = true ->
        validationFails w (unpacked w rel) -> r = Some executable).
Proof.
  intros Hpk Hdecl.
  rewrite (getExecutablePath_declared _ _ _ Hpk Hdecl).
  unfold existsSync, validateVendorFile, stat, readFile, validationFails. cbn.
  destruct (fs_existsSync w (unpacked w rel)) eqn:Hex; cbn.
  - destruct (fs_stat w (unpacked w rel)) as [e|st] eqn:Hst; cbn.
    + eexists _, _. split; [reflexivity|]. split; [tauto|]. reflexivity.
    + destruct (Z.ltb_spec (size st) 1000) as [Hlt|Hge]; cbn.
      * destruct (fs_readFile w (unpacked w rel)) as [e|content] eqn:Hrd; cbn.
        -- eexists _, _. split; [reflexivity|]. split; [tauto|]. reflexivity.
        -- destruct (JsString.startsWith content "#!/bin/bash"
                     || JsString.includes content "echo"); cbn;
             (eexists _, _; split; [reflexivity|]; split; [tauto|]);
             intros _ [[e He]|(st' & e & He & _ & Hr)]; congruence.
      * eexists _, _. split; [reflexivity|]. split; [tauto|].
        intros _ [[e He]|(st' & e & He & Hlt & _)]; [congruence|].
        assert (st' = st) by congruence. subst. lia.
  - destruct (String.eqb_spec executable "node") as [->|Hne]; cbn;
      (eexists _, _; split; [reflexivity|]; split; [tauto|]); discriminate.
Qed.

(** An undeclared name, or a key the table has no path for, is logged at
    error level and resolved as [undefined]. *)
Lemma getExecutablePath_undeclared (w : World) (executable : string) :
  app_isPackaged w = true ->
  declaredPath w executable = None ->
  exists msg,
    getExecutablePath w executable = ([Log error msg None], Return None).
Proof.
  intros Hpk Hdecl. unfold getExecutablePath, declaredPath in *. rewrite Hpk.
  destruct (find _ _) as [dep|].
  - rewrite Hdecl. eexists. reflexivity.
  - eexists. reflexivity.
Qed.

(** [getExecutablePath] always returns: it neither throws nor hangs. *)
Lemma getExecutablePath_returns (w : World) (executable : string) :
  exists tr r, getExecutablePath w executable = (tr, Return r).
Proof.
  destruct (app_isPackaged w) eqn:Hpk.
  - destruct (declaredPath w executable) as [rel|] eqn:Hdecl.
    + destruct (getExecutablePath_declared_cases _ _ _ Hpk Hdecl)
        as (tr & r & -> & _). eauto.
    + destruct (getExecutablePath_undeclared _ _ Hpk Hdecl) as [msg ->]. eauto.
  - unfold getExecutablePath. rewrite Hpk. eauto.
Qed.

(** C4: in packaged mode [getExecutablePath] returns for every name and
    every platform-arch key, it never throws.  A name the table does
    not declare, or a key it has no path for, is logged at error level
    and resolved as [undefined].  Otherwise the result is the absolute
    path of the template (resources root, [app.asar.unpacked], the
    table's relative path) or the documented fallback: the bare command
    name, or [undefined] for a missing file of a dependency other than
    [node].  When the file exists and validating it fails ([stat] or
    [readFile] rejects), the result is the bare command name. *)
Theorem getExecutablePath_never_throws (w : World) (executable : string) :
  app_isPackaged w = true ->
  exists tr r,
    getExecutablePath w executable = (tr, Return r)
    /\ match declaredPath w executable with
       | None => r = None /\ exists msg, In (Log error msg None) tr
       | Some rel =>
           (r = Some (unpacked w rel) \/ r = Some executable
            \/ (r = None /\ fs_existsSync w (unpacked w rel) = false
                         /\ executable <> "node"))
           /\ (fs_existsSync w (unpacked w rel) = true ->
               validationFails w (unpacked w rel) -> r = Some executable)
       end.
Proof.
  intros Hpk. destruct (declaredPath w executable) as [rel|] eqn:Hdecl.
  - destruct (getExecutablePath_declared_cases _ _ _ Hpk Hdecl)
      as (tr & r & Heq & Hres). exists tr, r. split; assumption.
  - destruct (getExecutablePath_undeclared _ _ Hpk Hdecl) as [msg Heq].
    eexists _, _. split; [exact Heq|]. split; [reflexivity|].
    exists msg. left. reflexivity.
Qed.

(** C1 (as the code has it): in packaged mode, when the bundle file
    exists and is smaller than the 1000-byte threshold, the resolver
    reads it and falls back to the bare command name exactly when the
    content starts with [#!/bin/bash] OR contains [echo]; a small file
    with neither is returned as the absolute path.  In particular the
    placeholder made of a bash shebang line and an [echo] line resolves
    to the bare command name. *)
Theorem getExecutablePath_small_file
    (w : World) (executable rel : string) (n : Z) (content : string) :
  app_isPackaged w = true ->
  declaredPath w executable = Some rel ->
  fs_existsSync w (unpacked w rel) = true ->
  fs_stat w (unpacked w rel) = inr {| size := n |} ->
  n < 1000 ->
  fs_readFile w (unpacked w rel) = inr content ->
  readsFile (fst (getExecutablePath w executable))
  /\ snd (getExecutablePath w executable) =
       Return (Some (if JsString.startsWith content "#!/bin/bash"
                        || JsString.includes content "echo"
                     then executable else unpacked w rel))
  /\ (content = stubContent ->
      snd (getExecutablePath w executable) = Return (Some executable)).
Proof.
  intros Hpk Hdecl Hex Hst Hn Hrd.
  rewrite (getExecutablePath_declared _ _ _ Hpk Hdecl).
  unfold existsSync, validateVendorFile, stat, readFile. cbn.
  rewrite Hex, Hst. cbn.
  destruct (Z.ltb_spec n 1000) as [_|Hge]; [|lia]. cbn. rewrite Hrd. cbn.
  assert (Hstub : JsString.startsWith stubContent "#!/bin/bash"
                  || JsString.includes stubContent "echo" = true)
    by reflexivity.
  destruct (JsString.startsWith content "#!/bin/bash"
            || JsString.includes content "echo") eqn:Hsig; cbn.
  - split; [exists (unpacked w rel); cbn; tauto|]. split; reflexivity.
  - split; [exists (unpacked w rel); cbn; tauto|]. split; [reflexivity|].
    intros ->. rewrite Hstub in Hsig. discriminate.
Qed.

(** ** The platform-arch key *)

Lemma getSystemArchKey_supported (w : World) :
  In (process_platform w) ["darwin"; "linux"; "win32"] ->
  In (getSystemArchKey w) SUPPORTED_KEYS.
Proof.
  unfold getSystemArchKey, SUPPORTED_KEYS. cbn [In].
  intros [<-|[<-|[<-|[]]]]; cbn.
  - destruct (String.eqb _ _); tauto.
  - tauto.
  - tauto.
Qed.

(** C8: on [darwin] the key is [darwin-arm64] or [darwin-x64] according
    to the reported architecture; on [linux] and [win32] it is
    [linux-x64] and [win32-x64] whatever the architecture; for any other
    platform it is the raw [platform-arch] string, under which no
    dependency of the table has a path. *)
Theorem getSystemArchKey_cases (w : World) :
  (process_platform w = "darwin" ->
     getSystemArchKey w =
       if String.eqb (process_arch w) "arm64" then "darwin-arm64" else "darwin-x64")
  /\ (process_platform w = "linux" -> getSystemArchKey w = "linux-x64")
  /\ (process_platform w = "win32" -> getSystemArchKey w = "win32-x64")
  /\ (~ In (process_platform w) ["darwin"; "linux"; "win32"] ->
       getSystemArchKey w = process_platform w ++ "-" ++ process_arch w
       /\ Forall (fun dep => paths dep !! getSystemArchKey w = None
                            /\ configuredPath dep (getSystemArchKey w) = None)
            PACKAGED_DEPENDENCIES).
Proof.
  split; [|split; [|split]].
  - unfold getSystemArchKey. intros ->. reflexivity.
  - unfold getSystemArchKey. intros ->. reflexivity.
  - unfold getSystemArchKey. intros ->. reflexivity.
  - intros Hns. cbn [In] in Hns.
    assert (Hraw : getSystemArchKey w
                   = process_platform w ++ "-" ++ process_arch w).
    { unfold getSystemArchKey.
      destruct (String.eqb_spec (process_platform w) "darwin") as [Heq|_];
        [exfalso; apply Hns; rewrite Heq; tauto|].
      destruct (String.eqb_spec (process_platform w) "linux") as [Heq|_];
        [exfalso; apply Hns; rewrite Heq; tauto|].
      destruct (String.eqb_spec (process_platform w) "win32") as [Heq|_];
        [exfalso; apply Hns; rewrite Heq; tauto|].
      reflexivity. }
    split; [exact Hraw|]. rewrite Hraw.
    apply Forall_forall. intros dep Hdep. apply list_elem_of_In in Hdep.
    assert (Hnone : paths dep !! (process_platform w ++ "-" ++ process_arch w) = None).
    { apply paths_keys; [exact Hdep|].
      apply raw_key_unsupported; intros Heq; apply Hns; rewrite Heq; tauto. }
    split; [exact Hnone|]. unfold configuredPath. rewrite Hnone. reflexivity.
Qed.

(** C10: in packaged mode on [darwin], [linux] and [win32] the table has
    a path for [node] under the platform-arch key, and
    [getExecutablePath("node")] returns the absolute bundle path or the
    bare string [node]: it is never [undefined]. *)
Theorem getExecutablePath_node_defined (w : World) :
  app_isPackaged w = true ->
  In (process_platform w) ["darwin"; "linux"; "win32"] ->
  exists rel,
    declaredPath w "node" = Some rel
    /\ (snd (getExecutablePath w "node") = Return (Some (unpacked w rel))
        \/ snd (getExecutablePath w "node") = Return (Some "node")).
Proof.
  intros Hpk Hplat.
  destruct (paths_supported
              (nth 1 PACKAGED_DEPENDENCIES (nth 0 PACKAGED_DEPENDENCIES
                 {| name := ""; executable := ""; paths := ∅ |}))
              (getSystemArchKey w)) as [rel Hrel].
  { cbn. tauto. }
  { apply getSystemArchKey_supported, Hplat. }
  exists rel. assert (Hdecl : declaredPath w "node" = Some rel) by exact Hrel.
  split; [exact Hdecl|].
  destruct (getExecutablePath_declared_cases _ _ _ Hpk Hdecl)
    as (tr & r & -> & [->|[->|[_ [_ Hne]]]] & _); cbn; tauto.
Qed.

(** ** The enhanced PATH *)

Lemma collectPathParts_development (w : World) (base : string) :
  app_isPackaged w = false -> collectPathParts w base = ([], Return [base]).
Proof. intros Hdev. unfold collectPathParts. rewrite Hdev. reflexivity. Qed.

Lemma addToPath_cases (w : World) (dep : Dependency) (parts : list string) :
  In dep PACKAGED_DEPENDENCIES ->
  exists tr,
    addToPath w (getSystemArchKey w) dep parts = (tr, Return parts)
    \/ exists d, bundleDir w d
         /\ addToPath w (getSystemArchKey w) dep parts = (tr, Return (d :: parts)).
Proof.
  intros Hdep. unfold addToPath.
  destruct (configuredPath dep (getSystemArchKey w)) as [rel|] eqn:Hrel.
  - unfold existsSync. cbn.
    destruct (fs_existsSync w (unpacked w rel)) eqn:Hex; cbn.
    + eexists. right. exists (dirname (unpacked w rel)).
      split; [|reflexivity]. exists dep, rel. tauto.
    + eexists. left. reflexivity.
  - eexists. left. reflexivity.
Qed.

Lemma forEach_addToPath (w : World) (deps : list Dependency) (parts : list string) :
  (forall dep, In dep deps -> In dep PACKAGED_DEPENDENCIES) ->
  exists tr dirs,
    forEach deps (addToPath w (getSystemArchKey w)) parts
      = (tr, Return (dirs ++ parts)%list)
    /\ Forall (bundleDir w) dirs.
Proof.
  revert parts. induction deps as [|dep deps IH]; intros parts Hsub.
  - exists [], []. split; [reflexivity|constructor].
  - cbn [forEach].
    assert (Hrest : forall d, In d deps -> In d PACKAGED_DEPENDENCIES).
    { intros d Hd. apply Hsub. right. exact Hd. }
    destruct (addToPath_cases w dep parts) as [tr [Hkeep|(d & Hd & Hadd)]].
    { apply Hsub. left. reflexivity. }
    + rewrite Hkeep. cbn [bind].
      destruct (IH parts Hrest) as (tr' & dirs & -> & Hdirs).
      eexists _, dirs. split; [reflexivity|exact Hdirs].
    + rewrite Hadd. cbn [bind].
      destruct (IH (d :: parts) Hrest) as (tr' & dirs & -> & Hdirs).
      eexists _, (dirs ++ [d])%list.
      split; [rewrite <- app_assoc; reflexivity|].
      apply Forall_app. split; [exact Hdirs|]. constructor; [exact Hd|constructor].
Qed.

Lemma collectPathParts_shape (w : World) (base : string) :
  exists tr dirs,
    collectPathParts w base = (tr, Return (dirs ++ [base])%list)
    /\ Forall (bundleDir w) dirs.
Proof.
  unfold collectPathParts. destruct (app_isPackaged w).
  - apply forEach_addToPath. tauto.
  - exists [], []. split; [reflexivity|constructor].
Qed.

(** C7 (as the code has it): with the packaged flag off,
    [buildEnhancedPath] performs no bundle look-up (its trace is empty)
    and returns the inherited PATH unchanged when that string has a
    character other than white space; an unset, empty or all-blank PATH
    gives the empty string. *)
Theorem buildEnhancedPath_development (w : World) :
  app_isPackaged w = false ->
  buildEnhancedPath w =
    ([], Return (if JsString.truthy (JsString.trim (basePath w))
                 then basePath w else "")).
Proof.
  intros Hdev. unfold buildEnhancedPath.
  rewrite (collectPathParts_development _ _ Hdev).
  unfold bind, ret, uniquePaths, JsString.unique.
  rewrite filter_cons, filter_nil.
  destruct (JsString.truthy (JsString.trim (basePath w)));
    destruct (decide _) as [Ht|Hf]; try discriminate; try congruence;
    reflexivity.
Qed.

Lemma uniqueFrom_app (a b seen : list string) :
  JsString.uniqueFrom seen (a ++ b)%list
  = (JsString.uniqueFrom seen a
     ++ JsString.uniqueFrom (rev (JsString.uniqueFrom seen a) ++ seen) b)%list.
Proof.
  revert seen. induction a as [|y a IH]; intros seen; [reflexivity|].
  cbn [app JsString.uniqueFrom]. case_bool_decide as Hy.
  - apply IH.
  - rewrite IH. cbn [rev app]. rewrite <- app_assoc. reflexivity.
Qed.

(** First occurrence wins: an element keeps the place of its first
    occurrence, and what stands before it is what stood before that
    occurrence. *)
Lemma unique_first_occurrence (pre post : list string) (x : string) :
  ~ In x pre ->
  exists pre' post',
    JsString.unique (pre ++ x :: post)%list = (pre' ++ x :: post')%list
    /\ forall y, In y pre' <-> In y pre.
Proof.
  intros Hx. unfold JsString.unique. rewrite uniqueFrom_app.
  exists (JsString.uniqueFrom [] pre). eexists. split.
  - cbn [JsString.uniqueFrom]. rewrite bool_decide_eq_false_2; [reflexivity|].
    rewrite app_nil_r, list_elem_of_In, <- in_rev, <- list_elem_of_In.
    rewrite uniqueFrom_elem, list_elem_of_In. tauto.
  - intros y. rewrite <- !list_elem_of_In, uniqueFrom_elem.
    split; [tauto|]. intros Hy. split; [exact Hy|apply not_elem_of_nil].
Qed.

Lemma addToPath_exact (w : World) (dep : Dependency) (parts : list string) :
  exists tr,
    addToPath w (getSystemArchKey w) dep parts
    = (tr, Return (bundleDirOf w dep ++ parts)%list).
Proof.
  unfold addToPath, bundleDirOf.
  destruct (configuredPath dep (getSystemArchKey w)) as [rel|];
    [|eexists; reflexivity].
  unfold existsSync. cbn.
  destruct (fs_existsSync w (unpacked w rel)); eexists; reflexivity.
Qed.

Lemma forEach_addToPath_exact (w : World) (deps : list Dependency)
    (parts : list string) :
  exists tr,
    forEach deps (addToPath w (getSystemArchKey w)) parts
    = (tr, Return (flat_map (bundleDirOf w) (rev deps) ++ parts)%list).
Proof.
  revert parts. induction deps as [|dep deps IH]; intros parts.
  - eexists. reflexivity.
  - cbn [forEach]. destruct (addToPath_exact w dep parts) as [tr ->].
    cbn [bind]. destruct (IH (bundleDirOf w dep ++ parts)%list) as [tr' ->].
    eexists. cbn [rev]. rewrite flat_map_app. cbn [flat_map].
    rewrite app_nil_r, <- app_assoc. reflexivity.
Qed.

Lemma collectPathParts_exact (w : World) (base : string) :
  exists tr,
    collectPathParts w base = (tr, Return (prependedDirs w ++ [base])%list).
Proof.
  unfold collectPathParts, prependedDirs. destruct (app_isPackaged w).
  - apply forEach_addToPath_exact.
  - eexists. reflexivity.
Qed.

Lemma prependedDirs_bundleDir (w : World) (d : string) :
  In d (prependedDirs w) <-> app_isPackaged w = true /\ bundleDir w d.
Proof.
  unfold prependedDirs, bundleDir. destruct (app_isPackaged w).
  - rewrite in_flat_map. split.
    + intros (dep & Hdep & Hd). split; [reflexivity|].
      apply in_rev in Hdep. unfold bundleDirOf in Hd.
      destruct (configuredPath dep (getSystemArchKey w)) as [rel|] eqn:Hrel;
        [|contradiction].
      destruct (fs_existsSync w (unpacked w rel)) eqn:Hex; [|contradiction].
      destruct Hd as [<-|[]]. exists dep, rel. tauto.
    + intros (_ & dep & rel & Hdep & Hrel & Hex & ->).
      exists dep. split; [apply in_rev; rewrite rev_involutive; exact Hdep|].
      unfold bundleDirOf. rewrite Hrel, Hex. left. reflexivity.
  - split; [contradiction|]. intros [Hc _]. discriminate Hc.
Qed.

(** C3 (as the code has it): [buildEnhancedPath] returns the join, by the
    platform's separator, of the parts [prependedDirs] followed by the
    inherited PATH, blank parts dropped and no part kept twice.  The
    inherited PATH counts as one part, not split into its directories.
    The parts in front of it are exactly the directories of the bundle
    files that exist (in packaged mode; none in development mode), the
    last dependency of the table first.  Among the non-blank parts the
    first occurrence wins: a part stands where it first occurred, after
    the parts that occurred before it.  The inherited PATH is the last
    part when it is not blank and differs from every prepended
    directory; an unset or blank PATH contributes no part. *)
Theorem buildEnhancedPath_parts (w : World) :
  exists tr,
    buildEnhancedPath w =
      (tr, Return (JsString.join (pathSeparator w)
                     (uniquePaths (prependedDirs w ++ [basePath w])%list)))
    /\ (forall d, In d (prependedDirs w)
                  <-> app_isPackaged w = true /\ bundleDir w d)
    /\ NoDup (uniquePaths (prependedDirs w ++ [basePath w])%list)
    /\ (forall x, In x (uniquePaths (prependedDirs w ++ [basePath w])%list)
                  <-> In x (prependedDirs w ++ [basePath w])%list
                      /\ JsString.trim x <> "")
    /\ (forall pre x post,
          nonBlank (prependedDirs w ++ [basePath w])%list = (pre ++ x :: post)%list ->
          ~ In x pre ->
          exists pre' post',
            uniquePaths (prependedDirs w ++ [basePath w])%list
            = (pre' ++ x :: post')%list
            /\ forall y, In y pre' <-> In y pre)
    /\ (JsString.trim (basePath w) <> "" -> ~ In (basePath w) (prependedDirs w) ->
        last (uniquePaths (prependedDirs w ++ [basePath w])%list)
        = Some (basePath w))
    /\ (JsString.trim (basePath w) = "" ->
        ~ In (basePath w) (uniquePaths (prependedDirs w ++ [basePath w])%list)).
Proof.
  destruct (collectPathParts_exact w (basePath w)) as (tr & Heq).
  exists (tr ++ [])%list. unfold buildEnhancedPath. rewrite Heq.
  split; [reflexivity|]. split; [apply prependedDirs_bundleDir|].
  assert (Htruthy : forall x, JsString.truthy (JsString.trim x) = true
                              <-> JsString.trim x <> "").
  { intros x. unfold JsString.truthy.
    destruct (String.eqb_spec (JsString.trim x) "") as [->|Hne]; cbn.
    - split; [discriminate|]. intros Hc. contradiction.
    - tauto. }
  unfold uniquePaths, JsString.unique.
  split; [apply uniqueFrom_NoDup|]. split; [|split; [|split]].
  - intros x. rewrite <- !list_elem_of_In, uniqueFrom_elem, list_elem_of_filter.
    rewrite Htruthy. split; [tauto|]. intros [Hin Hnb].
    split; [tauto|apply not_elem_of_nil].
  - intros pre x post Hl Hx. unfold nonBlank in Hl. rewrite Hl.
    apply unique_first_occurrence, Hx.
  - intros Hnb Hnd. rewrite filter_app, filter_cons, filter_nil.
    destruct (decide _) as [_|Hf].
    + rewrite uniqueFrom_snoc.
      * apply last_snoc.
      * rewrite list_elem_of_filter, list_elem_of_In. tauto.
      * apply not_elem_of_nil.
    + exfalso. apply Hf, Htruthy, Hnb.
  - intros Hb Hin. apply list_elem_of_In in Hin.
    rewrite uniqueFrom_elem, list_elem_of_filter in Hin.
    destruct Hin as [[Ht _] _]. rewrite Hb in Ht. discriminate.
Qed.

(** ** The liveness probe *)

Lemma step_invariant (p : Probe) (t : Tick) :
  probeInvariant p -> probeInvariant (step p t).
Proof.
  destruct p as [r s sg a]. unfold probeInvariant. cbn.
  intros (-> & Hr & Ha).
  destruct t, r, a, s; cbn; repeat split; intros; eauto; try discriminate;
    try (apply Hr; reflexivity); try (apply Ha; reflexivity).
Qed.

Lemma fold_step_invariant (ticks : list Tick) (p : Probe) :
  probeInvariant p -> probeInvariant (fold_left step ticks p).
Proof.
  revert p. induction ticks as [|t ticks IH]; intros p Hp; cbn.
  - exact Hp.
  - apply IH, step_invariant, Hp.
Qed.

Lemma run_invariant (ticks : list Tick) : probeInvariant (run ticks).
Proof.
  apply fold_step_invariant. unfold probeInvariant. cbn.
  repeat split; intros; discriminate.
Qed.

(** [process.kill] is never reached, whatever the event loop delivers. *)
Lemma run_never_kills (ticks : list Tick) : signals (run ticks) = [].
Proof. apply run_invariant. Qed.

(** The first settlement sticks. *)
Lemma settled_stable (ticks : list Tick) (p : Probe) (v : bool) :
  settled p = Some v -> settled (fold_left step ticks p) = Some v.
Proof.
  revert p. induction ticks as [|t ticks IH]; intros p Hp; cbn; [exact Hp|].
  apply IH. destruct p as [r s sg a]. cbn in Hp. subst s.
  destruct t, r, a; reflexivity.
Qed.

(** The promise is settled once the timer has elapsed. *)
Lemma probe_settled (w : World) (executable : string) :
  is_Some (settled (probe w executable)).
Proof.
  unfold probe, run. rewrite fold_left_app. cbn.
  pose proof (fold_step_invariant (child_ticks w executable) spawned) as Hinv.
  destruct Hinv as (_ & Hr & Ha).
  { unfold probeInvariant. cbn. repeat split; intros; discriminate. }
  destruct (fold_left step (child_ticks w executable) spawned) as [r s sg a].
  cbn in *.
  destruct a, r; cbn; try (apply Hr; reflexivity); try (apply Ha; reflexivity).
  destruct s; eauto.
Qed.

Lemma validateExecutable_returns (w : World) (executable : string) :
  spawnThrows executable = false ->
  exists b,
    validateExecutable w executable = ([Spawn executable ["--version"]], Return b).
Proof.
  intros Hok. unfold validateExecutable. rewrite Hok.
  destruct (probe_settled w executable) as [b ->]. exists b. reflexivity.
Qed.

(** C2 (what the code does when the timer elapses first): the promise
    resolves to [false], and no signal is ever sent to the child,
    neither then nor at any later tick: the kill in [cleanup] is
    guarded by the flag [resolveWith] has just raised. *)
Theorem validateExecutable_timeout_sends_no_signal (later : list Tick) :
  settled (run (TimerElapsed :: later)) = Some false
  /\ signals (run (TimerElapsed :: later)) = [].
Proof.
  split.
  - unfold run. cbn [fold_left]. apply settled_stable. reflexivity.
  - apply run_never_kills.
Qed.

(** ** The validation report *)

Lemma getExecutablePath_spawns_nothing (w : World) (executable : string) :
  spawnedCommands (fst (getExecutablePath w executable)) = [].
Proof.
  destruct (app_isPackaged w) eqn:Hpk.
  - destruct (declaredPath w executable) as [rel|] eqn:Hdecl.
    + rewrite (getExecutablePath_declared _ _ _ Hpk Hdecl).
      unfold existsSync, validateVendorFile, stat, readFile. cbn.
      destruct (fs_existsSync w (unpacked w rel)); cbn.
      * destruct (fs_stat w (unpacked w rel)) as [e|st]; cbn; [reflexivity|].
        destruct (size st <? 1000); cbn; [|reflexivity].
        destruct (fs_readFile w (unpacked w rel)) as [e|content]; cbn; [reflexivity|].
        destruct (JsString.startsWith content "#!/bin/bash"
                  || JsString.includes content "echo"); reflexivity.
      * destruct (String.eqb executable "node"); reflexivity.
    + destruct (getExecutablePath_undeclared _ _ Hpk Hdecl) as [msg ->]. reflexivity.
  - unfold getExecutablePath. rewrite Hpk. reflexivity.
Qed.

Lemma reportDependency_result (w : World) (dep : Dependency)
    (deps : gmap string ReportEntry) :
  spawnThrows (name dep) = false ->
  exists tr p b,
    reportDependency w dep deps
      = (tr, Return (<[name dep := {| path := p; available := b |}]> deps))
    /\ snd (getExecutablePath w (name dep)) = Return p
    /\ snd (validateExecutable w (name dep)) = Return b
    /\ spawnedCommands tr = [name dep].
Proof.
  intros Hok. unfold reportDependency.
  pose proof (getExecutablePath_spawns_nothing w (name dep)) as Hsp.
  destruct (getExecutablePath_returns w (name dep)) as (tr1 & p & H1).
  destruct (validateExecutable_returns w (name dep) Hok) as [b H2].
  rewrite H1, H2 in *. cbn [bind fst snd] in *.
  assert (Hlog : exists lvl msg,
             (if defined p && b
              then log info ("[Validation] " ++ name dep ++ " validated successfully")
              else if defined p
                   then log warn ("[Validation] " ++ name dep ++ " found but not executable")
                   else log warn ("[Validation] " ++ name dep ++ " not found"))
             = ([Log lvl msg None], Return tt)).
  { destruct (defined p && b); [|destruct (defined p)]; eexists _, _; reflexivity. }
  destruct Hlog as (lvl & msg & ->). cbn.
  eexists _, p, b. split; [reflexivity|]. split; [reflexivity|].
  split; [reflexivity|].
  unfold spawnedCommands in *. rewrite flat_map_app, Hsp. reflexivity.
Qed.

(** The report over every world: it returns, probes the bare names in
    table order, and pairs each resolver result with its probe result. *)
Lemma getValidationReport_entries (w : World) :
  exists tr r,
    getValidationReport w = (tr, Return r)
    /\ spawnedCommands tr = map name PACKAGED_DEPENDENCIES
    /\ Forall (fun dep => exists p b,
          snd (getExecutablePath w (name dep)) = Return p
          /\ snd (validateExecutable w (name dep)) = Return b
          /\ dependencies r !! name dep = Some {| path := p; available := b |})
        PACKAGED_DEPENDENCIES.
Proof.
  unfold getValidationReport, PACKAGED_DEPENDENCIES.
  cbn [forEach map].
  match goal with
  | |- context [reportDependency w ?d ∅] =>
      destruct (reportDependency_result w d ∅ eq_refl)
        as (tr1 & p1 & b1 & -> & Hp1 & Hb1 & Hs1)
  end.
  cbn [bind name] in *.
  match goal with
  | |- context [reportDependency w ?d ?m] =>
      destruct (reportDependency_result w d m eq_refl)
        as (tr2 & p2 & b2 & -> & Hp2 & Hb2 & Hs2)
  end.
  cbn [bind ret name] in *.
  eexists _, _. split; [reflexivity|]. split.
  - unfold spawnedCommands in *.
    rewrite !flat_map_app, Hs1, Hs2. reflexivity.
  - repeat constructor; cbn [name dependencies].
    + exists p1, b1. split; [exact Hp1|]. split; [exact Hb1|].
      rewrite lookup_insert_ne by discriminate. apply lookup_insert_eq.
    + exists p2, b2. split; [exact Hp2|]. split; [exact Hb2|].
      apply lookup_insert_eq.
Qed.

(** C9: [getValidationReport] always returns; the only processes it
    spawns are the probes of the bare names [dep.name], one per
    dependency in table order; and each entry of the report pairs the
    result of [getExecutablePath(dep.name)] with the result of
    [validateExecutable(dep.name)].  So an entry can hold the absolute
    bundle path with [available] false, and an entry with no path can
    have [available] true. *)
Theorem getValidationReport_probes_bare_names :
  (forall w : World, exists tr r,
      getValidationReport w = (tr, Return r)
      /\ spawnedCommands tr = map name PACKAGED_DEPENDENCIES
      /\ Forall (fun dep => exists p b,
            snd (getExecutablePath w (name dep)) = Return p
            /\ snd (validateExecutable w (name dep)) = Return b
            /\ dependencies r !! name dep = Some {| path := p; available := b |})
          PACKAGED_DEPENDENCIES)
  /\ (exists w r rel,
        snd (getValidationReport w) = Return r
        /\ declaredPath w "node" = Some rel
        /\ dependencies r !! "node"
            = Some {| path := Some (unpacked w rel); available := false |})
  /\ (exists w r,
        snd (getValidationReport w) = Return r
        /\ dependencies r !! "uv" = Some {| path := None; available := true |}).
Proof.
  split; [exact getValidationReport_entries|split].
  - destruct (getValidationReport_entries bundledButBroken)
      as (tr & r & Heq & _ & Hall).
    apply Forall_cons in Hall as [_ Hall].
    apply Forall_cons in Hall as [(p & b & Hp & Hb & Hentry) _].
    cbn [name] in *.
    assert (Hdecl : declaredPath bundledButBroken "node"
                    = Some "vendor/node-linux-x64/node-v20.18.0-linux-x64/bin/node")
      by (vm_compute; reflexivity).
    rewrite (getExecutablePath_declared bundledButBroken _ _ eq_refl Hdecl) in Hp.
    cbn in Hp. injection Hp as <-.
    vm_compute in Hb. injection Hb as <-.
    exists bundledButBroken, r,
      "vendor/node-linux-x64/node-v20.18.0-linux-x64/bin/node".
    rewrite Heq. split; [reflexivity|]. split; [exact Hdecl|exact Hentry].
  - destruct (getValidationReport_entries systemOnly)
      as (tr & r & Heq & _ & Hall).
    apply Forall_cons in Hall as [(p & b & Hp & Hb & Hentry) _].
    cbn [name] in *.
    assert (Hdecl : declaredPath systemOnly "uv"
                    = Some "vendor/uv-linux-x64/uv-x86_64-unknown-linux-gnu/uv")
      by (vm_compute; reflexivity).
    rewrite (getExecutablePath_declared systemOnly _ _ eq_refl Hdecl) in Hp.
    cbn in Hp. injection Hp as <-.
    vm_compute in Hb. injection Hb as <-.
    exists systemOnly, r. rewrite Heq. split; [reflexivity|exact Hentry].
Qed.

End Properties.

(** * Further properties of the module *)

Section MoreProperties.

Context {pathModule : PathModule}.

Local Arguments String.append : simpl never.

(** ** The resolver as a decision table *)

Lemma getExecutablePath_declared_value (w : World) (executable rel : string) :
  app_isPackaged w = true ->
  declaredPath w executable = Some rel ->
  snd (getExecutablePath w executable) = Return (resolution w executable rel).
Proof.
  intros Hpk Hdecl.
  rewrite (getExecutablePath_declared _ _ _ Hpk Hdecl).
  unfold resolution, existsSync, validateVendorFile, stat, readFile. cbn.
  destruct (fs_existsSync w (unpacked w rel)); cbn.
  - destruct (fs_stat w (unpacked w rel)) as [e|st]; cbn; [reflexivity|].
    destruct (size st <? 1000); cbn; [|reflexivity].
    destruct (fs_readFile w (unpacked w rel)) as [e|content]; cbn; [reflexivity|].
    destruct (JsString.startsWith content "#!/bin/bash"
              || JsString.includes content "echo"); reflexivity.
  - destruct (String.eqb executable "node"); reflexivity.
Qed.

Lemma getExecutablePath_resolved (w : World) (executable : string) :
  snd (getExecutablePath w executable) = Return (resolved w executable).
Proof.
  unfold resolved. destruct (app_isPackaged w) eqn:Hpk.
  - destruct (declaredPath w executable) as [rel|] eqn:Hdecl.
    + apply getExecutablePath_declared_value; assumption.
    + destruct (getExecutablePath_undeclared _ _ Hpk Hdecl) as [msg ->]. reflexivity.
  - unfold getExecutablePath. rewrite Hpk. reflexivity.
Qed.

Lemma getExecutablePath_run (w : World) (executable : string) :
  exists tr, getExecutablePath w executable = (tr, Return (resolved w executable)).
Proof.
  pose proof (getExecutablePath_resolved w executable) as H.
  destruct (getExecutablePath w executable) as [tr o]. cbn in H. subst o. eauto.
Qed.

(** X1: for a command name that is empty or holds a NUL character,
    [spawn] throws: the promise of [validateExecutable] rejects and
    nothing is spawned.  For every other name the command is spawned
    once and the promise takes the verdict of the first tick the child
    delivers: [true] exactly for an [exit] or [close] with code 0; a
    spawn error, a non-zero or null code, or no event before the timer
    give [false]; nothing delivered later changes it. *)
Theorem validateExecutable_first_tick_decides (w : World) (executable : string) :
  validateExecutable w executable =
    if spawnThrows executable
    then ([], Throw spawnError)
    else ([Spawn executable ["--version"]],
          Return (match child_ticks w executable with
                  | [] => false
                  | t :: _ => verdict t
                  end)).
Proof.
  unfold validateExecutable, probe, run.
  destruct (spawnThrows executable); [reflexivity|].
  destruct (child_ticks w executable) as [|t later]; [reflexivity|].
  cbn [app fold_left].
  rewrite (settled_stable _ _ (verdict t)); [reflexivity|].
  destruct t as [[c|]| |[c|]|]; cbn; try reflexivity;
    destruct (c =? 0); reflexivity.
Qed.

(** X2: in packaged mode, when the bundle file of a declared dependency
    does not exist, [node] resolves to the bare name and every other
    dependency to [undefined], and the file is neither stat-ed nor read:
    the only file-system operation is the one [existsSync]. *)
Theorem getExecutablePath_missing_file (w : World) (executable rel : string) :
  app_isPackaged w = true ->
  declaredPath w executable = Some rel ->
  fs_existsSync w (unpacked w rel) = false ->
  snd (getExecutablePath w executable)
    = Return (if String.eqb executable "node" then Some "node" else None)
  /\ fsEvents (fst (getExecutablePath w executable))
     = [ExistsSync (unpacked w rel)].
Proof.
  intros Hpk Hdecl Hex.
  rewrite (getExecutablePath_declared _ _ _ Hpk Hdecl).
  unfold existsSync. cbn. rewrite Hex. cbn.
  destruct (String.eqb_spec executable "node") as [->|Hne]; split; reflexivity.
Qed.

(** X3: whatever the mode, the name and the file system,
    [getExecutablePath] touches at most one path, the bundle path of the
    table: its file-system operations are a prefix of
    [existsSync], [stat], [readFile] on that path, in this order, and it
    spawns nothing. *)
Theorem getExecutablePath_touches_one_path (w : World) (executable : string) :
  spawnedCommands (fst (getExecutablePath w executable)) = []
  /\ (fsEvents (fst (getExecutablePath w executable)) = []
      \/ exists rel,
           app_isPackaged w = true
           /\ declaredPath w executable = Some rel
           /\ exists k,
                fsEvents (fst (getExecutablePath w executable))
                = take k [ExistsSync (unpacked w rel); Stat (unpacked w rel);
                          ReadFile (unpacked w rel)]).
Proof.
  split; [apply getExecutablePath_spawns_nothing|].
  destruct (app_isPackaged w) eqn:Hpk.
  - destruct (declaredPath w executable) as [rel|] eqn:Hdecl.
    + right. exists rel. split; [reflexivity|]. split; [reflexivity|].
      rewrite (getExecutablePath_declared _ _ _ Hpk Hdecl).
      unfold existsSync, validateVendorFile, stat, readFile. cbn.
      destruct (fs_existsSync w (unpacked w rel)); cbn.
      * destruct (fs_stat w (unpacked w rel)) as [e|st]; cbn;
          [exists 2%nat; reflexivity|].
        destruct (size st <? 1000); cbn; [|exists 2%nat; reflexivity].
        destruct (fs_readFile w (unpacked w rel)) as [e|content]; cbn;
          [exists 3%nat; reflexivity|].
        destruct (JsString.startsWith content "#!/bin/bash"
                  || JsString.includes content "echo");
          exists 3%nat; reflexivity.
      * destruct (String.eqb executable "node"); exists 1%nat; reflexivity.
    + left. destruct (getExecutablePath_undeclared _ _ Hpk Hdecl) as [msg ->].
      reflexivity.
  - left. unfold getExecutablePath. rewrite Hpk. reflexivity.
Qed.

(** ** The enhanced PATH, exactly *)

Lemma buildEnhancedPath_returns (w : World) :
  exists tr v, buildEnhancedPath w = (tr, Return v).
Proof.
  unfold buildEnhancedPath.
  destruct (collectPathParts_shape w (basePath w)) as (tr & dirs & -> & _).
  eexists _, _. reflexivity.
Qed.

(** X4: in packaged mode on a host the table knows, the result of
    [buildEnhancedPath] is the de-duplicated join of: the directory of
    the [node] binary if that file exists, then the directory of the
    [uv] binary if that file exists, then the inherited PATH.  The last
    dependency of the table comes first.  The only file-system
    operations are the two [existsSync], [uv] first. *)
Theorem buildEnhancedPath_priority (w : World) (uvRel nodeRel : string) :
  app_isPackaged w = true ->
  declaredPath w "uv" = Some uvRel ->
  declaredPath w "node" = Some nodeRel ->
  snd (buildEnhancedPath w) =
    Return (JsString.join (pathSeparator w)
              (uniquePaths
                 ((if fs_existsSync w (unpacked w nodeRel)
                   then [dirname (unpacked w nodeRel)] else [])
                  ++ (if fs_existsSync w (unpacked w uvRel)
                      then [dirname (unpacked w uvRel)] else [])
                  ++ [basePath w])%list))
  /\ fsEvents (fst (buildEnhancedPath w))
     = [ExistsSync (unpacked w uvRel); ExistsSync (unpacked w nodeRel)].
Proof.
  intros Hpk Huv Hnode.
  unfold buildEnhancedPath, collectPathParts. rewrite Hpk.
  unfold PACKAGED_DEPENDENCIES. cbn [forEach].
  unfold addToPath.
  match goal with
  | |- context [configuredPath ?d (getSystemArchKey w)] =>
      replace (configuredPath d (getSystemArchKey w)) with (Some uvRel)
        by (symmetry; exact Huv)
  end.
  match goal with
  | |- context [configuredPath ?d (getSystemArchKey w)] =>
      replace (configuredPath d (getSystemArchKey w)) with (Some nodeRel)
        by (symmetry; exact Hnode)
  end.
  unfold existsSync. cbn.
  destruct (fs_existsSync w (unpacked w uvRel));
    destruct (fs_existsSync w (unpacked w nodeRel)); cbn; split; reflexivity.
Qed.

Lemma getSystemArchKey_raw (w : World) :
  ~ In (process_platform w) ["darwin"; "linux"; "win32"] ->
  ~ In (getSystemArchKey w) SUPPORTED_KEYS.
Proof.
  intros Hns. cbn [In] in Hns.
  assert (Hraw : getSystemArchKey w
                 = process_platform w ++ "-" ++ process_arch w).
  { unfold getSystemArchKey.
    destruct (String.eqb_spec (process_platform w) "darwin") as [Heq|_];
      [exfalso; apply Hns; rewrite Heq; tauto|].
    destruct (String.eqb_spec (process_platform w) "linux") as [Heq|_];
      [exfalso; apply Hns; rewrite Heq; tauto|].
    destruct (String.eqb_spec (process_platform w) "win32") as [Heq|_];
      [exfalso; apply Hns; rewrite Heq; tauto|].
    reflexivity. }
  rewrite Hraw.
  apply raw_key_unsupported; intros Heq; apply Hns; rewrite Heq; tauto.
Qed.

Lemma configuredPath_unsupported (w : World) (dep : Dependency) :
  ~ In (process_platform w) ["darwin"; "linux"; "win32"] ->
  In dep PACKAGED_DEPENDENCIES ->
  configuredPath dep (getSystemArchKey w) = None.
Proof.
  intros Hns Hdep. unfold configuredPath.
  rewrite (paths_keys dep _ Hdep (getSystemArchKey_raw w Hns)). reflexivity.
Qed.

(** X5: on a host the table does not know (any platform other than
    [darwin], [linux], [win32]) [buildEnhancedPath] looks nothing up and
    logs nothing, even in packaged mode: the trace is empty and the
    result is the inherited PATH (the empty string when that is blank). *)
Theorem buildEnhancedPath_unsupported_host (w : World) :
  ~ In (process_platform w) ["darwin"; "linux"; "win32"] ->
  buildEnhancedPath w =
    ([], Return (if JsString.truthy (JsString.trim (basePath w))
                 then basePath w else "")).
Proof.
  intros Hns.
  assert (Hparts : collectPathParts w (basePath w) = ([], Return [basePath w])).
  { unfold collectPathParts. destruct (app_isPackaged w); [|reflexivity].
    unfold PACKAGED_DEPENDENCIES. cbn [forEach]. unfold addToPath.
    rewrite !(configuredPath_unsupported w) by (assumption || (cbn; tauto)).
    reflexivity. }
  unfold buildEnhancedPath. rewrite Hparts.
  unfold bind, ret, uniquePaths, JsString.unique.
  rewrite filter_cons, filter_nil.
  destruct (JsString.truthy (JsString.trim (basePath w)));
    destruct (decide _) as [Ht|Hf]; try discriminate; try congruence;
    reflexivity.
Qed.

(** ** The availability map *)

Lemma defined_resolution_node (w : World) (rel : string) :
  unpacked w rel <> "" -> defined (resolution w "node" rel) = true.
Proof.
  intros Hne. unfold resolution.
  assert (Hp : JsString.truthy (unpacked w rel) = true).
  { unfold JsString.truthy.
    destruct (String.eqb_spec (unpacked w rel) ""); [contradiction|reflexivity]. }
  destruct (fs_existsSync w (unpacked w rel)); [|reflexivity].
  destruct (fs_stat w (unpacked w rel)) as [e|st]; [reflexivity|].
  destruct (size st <? 1000); [|exact Hp].
  destruct (fs_readFile w (unpacked w rel)) as [e|content]; [reflexivity|].
  destruct (_ || _); [reflexivity|exact Hp].
Qed.

Lemma defined_resolution_uv (w : World) (rel : string) :
  unpacked w rel <> "" ->
  defined (resolution w "uv" rel) = fs_existsSync w (unpacked w rel).
Proof.
  intros Hne. unfold resolution.
  assert (Hp : JsString.truthy (unpacked w rel) = true).
  { unfold JsString.truthy.
    destruct (String.eqb_spec (unpacked w rel) ""); [contradiction|reflexivity]. }
  destruct (fs_existsSync w (unpacked w rel)); [|reflexivity].
  destruct (fs_stat w (unpacked w rel)) as [e|st]; [reflexivity|].
  destruct (size st <? 1000); [|exact Hp].
  destruct (fs_readFile w (unpacked w rel)) as [e|content]; [reflexivity|].
  destruct (_ || _); [reflexivity|exact Hp].
Qed.

Lemma validateDependency_result (w : World) (dep : Dependency)
    (results : gmap string bool) :
  exists tr,
    validateDependency w dep results
    = (tr, Return (<[name dep := defined (resolved w (name dep))]> results)).
Proof.
  unfold validateDependency.
  destruct (getExecutablePath_run w (name dep)) as [tr ->]. cbn [bind].
  destruct (resolved w (name dep)) as [p|]; cbn.
  - destruct (JsString.truthy p); eexists; reflexivity.
  - eexists; reflexivity.
Qed.

Lemma validatePackagedDependencies_result (w : World) :
  exists tr,
    validatePackagedDependencies w
    = (tr, Return (<["node" := defined (resolved w "node")]>
                     (<["uv" := defined (resolved w "uv")]> ∅))).
Proof.
  unfold validatePackagedDependencies, PACKAGED_DEPENDENCIES. cbn [forEach].
  match goal with
  | |- context [validateDependency w ?d ∅] =>
      destruct (validateDependency_result w d ∅) as [tr1 ->]
  end.
  cbn [bind name].
  match goal with
  | |- context [validateDependency w ?d ?m] =>
      destruct (validateDependency_result w d m) as [tr2 ->]
  end.
  cbn [bind ret name]. eexists. reflexivity.
Qed.

(** X6: in packaged mode on a host the table knows,
    [validatePackagedDependencies] marks [node] available whatever is on
    disk (binary, placeholder, unreadable file or nothing at all), and
    marks [uv] available exactly when a file exists at its bundle path,
    placeholder or not. *)
Theorem validatePackagedDependencies_packaged
    (w : World) (uvRel nodeRel : string) :
  app_isPackaged w = true ->
  declaredPath w "uv" = Some uvRel ->
  declaredPath w "node" = Some nodeRel ->
  unpacked w uvRel <> "" ->
  unpacked w nodeRel <> "" ->
  exists tr results,
    validatePackagedDependencies w = (tr, Return results)
    /\ results !! "node" = Some true
    /\ results !! "uv" = Some (fs_existsSync w (unpacked w uvRel)).
Proof.
  intros Hpk Huv Hnode Hu Hn.
  destruct (validatePackagedDependencies_result w) as [tr ->].
  eexists _, _. split; [reflexivity|].
  unfold resolved. rewrite Hpk, Huv, Hnode. split.
  - rewrite lookup_insert_eq, defined_resolution_node by assumption. reflexivity.
  - rewrite lookup_insert_ne by discriminate.
    rewrite lookup_insert_eq, defined_resolution_uv by assumption. reflexivity.
Qed.

(** X7: in development mode [validatePackagedDependencies] marks every
    dependency available and performs no file-system operation. *)
Theorem validatePackagedDependencies_development (w : World) :
  app_isPackaged w = false ->
  snd (validatePackagedDependencies w)
    = Return (<["node" := true]> (<["uv" := true]> ∅))
  /\ fsEvents (fst (validatePackagedDependencies w)) = [].
Proof.
  intros Hdev.
  unfold validatePackagedDependencies, PACKAGED_DEPENDENCIES, validateDependency.
  cbn [forEach name]. unfold getExecutablePath. rewrite Hdev.
  split; reflexivity.
Qed.

(** ** The launch options *)

Lemma getSDKExecutableOptions_run (w : World) (inherited : gmap string string) :
  exists tr p,
    snd (buildEnhancedPath w) = Return p
    /\ getSDKExecutableOptions w inherited =
        (tr, Return
               {| options_executable :=
                    if defined (resolved w "node") then Some "node" else None;
                  options_env :=
                    if defined (resolved w "uv")
                    then <["UV_PYTHON_PREFERENCE" := "only-system"]>
                           (<["PATH" := p]> (processEnv w inherited))
                    else <["PATH" := p]> (processEnv w inherited) |}).
Proof.
  unfold getSDKExecutableOptions.
  destruct (getExecutablePath_run w "node") as [tr1 ->].
  destruct (getExecutablePath_run w "uv") as [tr3 ->].
  destruct (buildEnhancedPath_returns w) as (tr2 & p & ->).
  exists (tr1 ++ (if defined (resolved w "node")
                  then [Log info "[Packaging] Using node as SDK executable" None]
                  else [Log warn "[Packaging] node not found, will use system node" None])
              ++ tr2 ++ tr3 ++ [])%list, p.
  split; [reflexivity|]. cbn [bind].
  destruct (defined (resolved w "node")); cbn;
    destruct (defined (resolved w "uv")); reflexivity.
Qed.

Lemma processEnv_other (w : World) (inherited : gmap string string) (k : string) :
  k <> "PATH" -> processEnv w inherited !! k = inherited !! k.
Proof.
  intros Hk. unfold processEnv. destruct (process_env_PATH w).
  - apply lookup_insert_ne. congruence.
  - apply lookup_delete_ne. congruence.
Qed.

(** X8: [getSDKExecutableOptions] always returns (it never throws).  In
    the environment it builds, [PATH] is the result of
    [buildEnhancedPath]; [UV_PYTHON_PREFERENCE] is [only-system] when
    [getExecutablePath("uv")] resolves to something, and otherwise keeps
    whatever value the process inherited; every other variable of the
    process is passed on unchanged. *)
Theorem getSDKExecutableOptions_env (w : World) (inherited : gmap string string) :
  exists tr options p uvPath,
    getSDKExecutableOptions w inherited = (tr, Return options)
    /\ snd (buildEnhancedPath w) = Return p
    /\ snd (getExecutablePath w "uv") = Return uvPath
    /\ options_env options !! "PATH" = Some p
    /\ options_env options !! "UV_PYTHON_PREFERENCE"
       = (if defined uvPath then Some "only-system"
          else inherited !! "UV_PYTHON_PREFERENCE")
    /\ (forall k, k <> "PATH" -> k <> "UV_PYTHON_PREFERENCE" ->
        options_env options !! k = inherited !! k).
Proof.
  destruct (getSDKExecutableOptions_run w inherited) as (tr & p & Hp & ->).
  eexists _, _, p, (resolved w "uv").
  split; [reflexivity|]. split; [exact Hp|].
  split; [apply getExecutablePath_resolved|]. cbn [options_env].
  destruct (defined (resolved w "uv")); repeat split.
  - rewrite lookup_insert_ne by discriminate. apply lookup_insert_eq.
  - apply lookup_insert_eq.
  - intros k Hk1 Hk2. rewrite !lookup_insert_ne by congruence.
    apply processEnv_other, Hk1.
  - apply lookup_insert_eq.
  - rewrite lookup_insert_ne by discriminate.
    apply processEnv_other. discriminate.
  - intros k Hk1 Hk2. rewrite lookup_insert_ne by congruence.
    apply processEnv_other, Hk1.
Qed.

(** X9: the executable chosen by [getSDKExecutableOptions] is ["node"]
    in development mode and, in packaged mode, on every host the table
    has a [node] path for, whatever the bundle holds; it is left unset
    only in packaged mode on a host without a [node] path. *)
Theorem getSDKExecutableOptions_executable
    (w : World) (inherited : gmap string string) :
  exists tr options,
    getSDKExecutableOptions w inherited = (tr, Return options)
    /\ (app_isPackaged w = false -> options_executable options = Some "node")
    /\ (forall rel, app_isPackaged w = true ->
                    declaredPath w "node" = Some rel ->
                    unpacked w rel <> "" ->
                    options_executable options = Some "node")
    /\ (app_isPackaged w = true -> declaredPath w "node" = None ->
        options_executable options = None).
Proof.
  destruct (getSDKExecutableOptions_run w inherited) as (tr & p & _ & ->).
  eexists _, _. split; [reflexivity|]. cbn [options_executable].
  unfold resolved. repeat split.
  - intros ->. reflexivity.
  - intros rel -> -> Hne. rewrite defined_resolution_node by exact Hne. reflexivity.
  - intros -> ->. reflexivity.
Qed.

(** ** The report's shape *)

(** X10: the report of [getValidationReport] copies the platform and the
    packaged flag of the process and has exactly one entry per
    dependency of the table, [uv] and [node]. *)
Theorem getValidationReport_shape (w : World) :
  exists tr r,
    getValidationReport w = (tr, Return r)
    /\ platform r = process_platform w
    /\ isPackaged r = app_isPackaged w
    /\ dom (dependencies r) = ({["uv"; "node"]} : gset string).
Proof.
  unfold getValidationReport, PACKAGED_DEPENDENCIES. cbn [forEach].
  match goal with
  | |- context [reportDependency w ?d ∅] =>
      destruct (reportDependency_result w d ∅ eq_refl) as (tr1 & p1 & b1 & -> & _)
  end.
  cbn [bind name].
  match goal with
  | |- context [reportDependency w ?d ?m] =>
      destruct (reportDependency_result w d m eq_refl) as (tr2 & p2 & b2 & -> & _)
  end.
  cbn [bind ret name].
  eexists _, _. split; [reflexivity|]. cbn [platform isPackaged dependencies].
  split; [reflexivity|]. split; [reflexivity|].
  rewrite !dom_insert_L, dom_empty_L. set_solver.
Qed.

(** ** The probe of the compiled module *)

Lemma compiled_fold_signals (ticks : list Tick) (p : Probe) :
  signals (fold_left Compiled.step ticks p)
  = (signals p ++ (if timerArmed p && existsb isTimer ticks
                   then ["SIGTERM"] else []))%list.
Proof.
  revert p. induction ticks as [|t ticks IH]; intros p; cbn [fold_left existsb].
  - rewrite andb_false_r, app_nil_r. reflexivity.
  - rewrite IH. destruct p as [r s sg a].
    destruct t as [c| |c|]; cbn; try reflexivity.
    destruct a; cbn.
    + rewrite app_nil_r. reflexivity.
    + reflexivity.
Qed.

(** X11: the probe of the compiled [packaging.js] never clears its
    timer: [process.kill()], whose default signal is [SIGTERM], is
    called exactly when the timer elapses, and called once.  The call is
    also made after the child has already closed; what is counted is the
    call, which on an exited child delivers nothing. *)
Theorem compiled_probe_kills_when_timer_elapses (ticks : list Tick) :
  signals (Compiled.run ticks)
  = if existsb isTimer ticks then ["SIGTERM"] else [].
Proof. unfold Compiled.run. rewrite compiled_fold_signals. reflexivity. Qed.

(** ** The earlier revision *)

Lemma forEach_addToPath_returns (w : World) (key : string)
    (deps : list Dependency) (parts : list string) :
  exists tr parts', forEach deps (addToPath w key) parts = (tr, Return parts').
Proof.
  revert parts. induction deps as [|dep deps IH]; intros parts; cbn [forEach].
  - eexists _, _. reflexivity.
  - assert (Hstep : exists tr parts', addToPath w key dep parts = (tr, Return parts')).
    { unfold addToPath. destruct (configuredPath dep key) as [rel|].
      - unfold existsSync. cbn. destruct (fs_existsSync w (unpacked w rel));
          eexists _, _; reflexivity.
      - eexists _, _; reflexivity. }
    destruct Hstep as (tr & parts' & ->). cbn [bind].
    destruct (IH parts') as (tr' & parts'' & ->). eexists _, _. reflexivity.
Qed.

Lemma bun_buildEnhancedPath_returns (w : World) :
  exists tr v, BunRevision.buildEnhancedPath w = (tr, Return v).
Proof.
  unfold BunRevision.buildEnhancedPath. destruct (app_isPackaged w).
  - destruct (forEach_addToPath_returns w (process_platform w)
                BunRevision.PACKAGED_DEPENDENCIES [basePath w]) as (tr & parts & ->).
    eexists _, _. reflexivity.
  - eexists _, _. reflexivity.
Qed.

Lemma bun_getExecutablePath_run (w : World) (executable : string) :
  exists tr,
    BunRevision.getExecutablePath w executable
    = (tr, Return (BunRevision.resolved w executable)).
Proof.
  unfold BunRevision.getExecutablePath, BunRevision.resolved,
    BunRevision.declaredPath, BunRevision.resolution.
  destruct (app_isPackaged w); [|eexists; reflexivity].
  destruct (find _ _) as [dep|]; [|eexists; reflexivity].
  destruct (configuredPath dep (process_platform w)) as [rel|];
    [|eexists; reflexivity].
  unfold existsSync, validateVendorFile, stat, readFile. cbn.
  destruct (fs_existsSync w (unpacked w rel)); cbn.
  - destruct (fs_stat w (unpacked w rel)) as [e|st]; cbn; [eexists; reflexivity|].
    destruct (size st <? 1000); cbn; [|eexists; reflexivity].
    destruct (fs_readFile w (unpacked w rel)) as [e|content]; cbn;
      [eexists; reflexivity|].
    destruct (JsString.startsWith content "#!/bin/bash"
              || JsString.includes content "echo"); eexists; reflexivity.
  - destruct (String.eqb executable "node" || String.eqb executable "bun");
      eexists; reflexivity.
Qed.

Lemma bun_declared_platform (w : World) :
  (In (process_platform w) ["darwin"; "linux"; "win32"] ->
   exists rel, BunRevision.declaredPath w "bun" = Some rel)
  /\ (~ In (process_platform w) ["darwin"; "linux"; "win32"] ->
      BunRevision.declaredPath w "bun" = None
      /\ BunRevision.declaredPath w "node" = None
      /\ BunRevision.declaredPath w "uv" = None).
Proof.
  unfold BunRevision.declaredPath. cbn [find BunRevision.PACKAGED_DEPENDENCIES].
  split.
  - cbn [In]. intros [<-|[<-|[<-|[]]]]; eexists; vm_compute; reflexivity.
  - intros Hns.
    assert (Hne : forall k, In k ["darwin"; "linux"; "win32"] ->
                            k <> process_platform w) by congruence.
    cbn [In] in Hne. cbn. unfold configuredPath. cbn.
    rewrite !lookup_insert_ne by (apply Hne; tauto).
    rewrite !lookup_empty. tauto.
Qed.

Lemma bun_getSDKExecutableOptions_run (w : World) (inherited : gmap string string) :
  exists tr p,
    BunRevision.getSDKExecutableOptions w inherited =
      (tr, Return
             {| options_executable :=
                  if defined (BunRevision.resolved w "bun") then Some "bun"
                  else if defined (BunRevision.resolved w "node") then Some "node"
                       else None;
                options_env :=
                  let env := <["PATH" := p]> (processEnv w inherited) in
                  let env :=
                    match BunRevision.resolved w "bun" with
                    | Some b => if JsString.truthy b
                                then <["BUN_INSTALL" := dirname b]> env else env
                    | None => env
                    end in
                  if defined (BunRevision.resolved w "uv")
                  then <["UV_PYTHON_PREFERENCE" := "only-system"]> env
                  else env |}).
Proof.
  unfold BunRevision.getSDKExecutableOptions.
  destruct (bun_getExecutablePath_run w "bun") as [tr1 ->].
  destruct (bun_getExecutablePath_run w "node") as [tr2 ->].
  destruct (bun_getExecutablePath_run w "uv") as [tr4 ->].
  destruct (bun_buildEnhancedPath_returns w) as (tr3 & p & ->).
  cbn [bind].
  destruct (defined (BunRevision.resolved w "bun")); cbn.
  - destruct (defined (BunRevision.resolved w "uv")); eexists _, p; reflexivity.
  - destruct (defined (BunRevision.resolved w "node")); cbn;
      destruct (defined (BunRevision.resolved w "uv")); eexists _, p; reflexivity.
Qed.

Lemma bun_resolution_defined (w : World) (rel : string) :
  unpacked w rel <> "" -> defined (BunRevision.resolution w "bun" rel) = true.
Proof.
  intros Hne. unfold BunRevision.resolution.
  assert (Hp : JsString.truthy (unpacked w rel) = true).
  { unfold JsString.truthy.
    destruct (String.eqb_spec (unpacked w rel) ""); [contradiction|reflexivity]. }
  destruct (fs_existsSync w (unpacked w rel)); [|reflexivity].
  destruct (fs_stat w (unpacked w rel)) as [e|st]; [reflexivity|].
  destruct (size st <? 1000); [|exact Hp].
  destruct (fs_readFile w (unpacked w rel)) as [e|content]; [reflexivity|].
  destruct (_ || _); [reflexivity|exact Hp].
Qed.

(** X12: in the earlier revision the [node] branch of
    [getSDKExecutableOptions] is never taken: the executable is ["bun"]
    in development mode and on [darwin], [linux] and [win32], whatever
    the bundle holds, and it is left unset on any other platform in
    packaged mode, where [node] has no path either. *)
Theorem bun_getSDKExecutableOptions_never_node
    (w : World) (inherited : gmap string string) :
  (forall rel, BunRevision.declaredPath w "bun" = Some rel -> unpacked w rel <> "") ->
  exists tr options,
    BunRevision.getSDKExecutableOptions w inherited = (tr, Return options)
    /\ options_executable options <> Some "node"
    /\ (app_isPackaged w = false \/
        In (process_platform w) ["darwin"; "linux"; "win32"] ->
        options_executable options = Some "bun")
    /\ (app_isPackaged w = true ->
        ~ In (process_platform w) ["darwin"; "linux"; "win32"] ->
        options_executable options = None).
Proof.
  intros Hne.
  destruct (bun_getSDKExecutableOptions_run w inherited) as (tr & p & ->).
  eexists _, _. split; [reflexivity|]. cbn [options_executable].
  destruct (bun_declared_platform w) as [Hsup Hunsup].
  unfold BunRevision.resolved.
  destruct (app_isPackaged w) eqn:Hpk.
  - destruct (in_dec string_dec (process_platform w) ["darwin"; "linux"; "win32"])
      as [Hin|Hout].
    + destruct (Hsup Hin) as [rel Hrel]. rewrite Hrel.
      rewrite bun_resolution_defined by (apply Hne, Hrel).
      split; [discriminate|]. split; [reflexivity|]. intros _ Hc. contradiction.
    + destruct (Hunsup Hout) as (-> & -> & _). cbn.
      split; [discriminate|]. split; [|reflexivity].
      intros [Hc|Hc]; [discriminate|contradiction].
  - cbn. split; [discriminate|]. split; [reflexivity|]. discriminate.
Qed.

(** X13: in the earlier revision [BUN_INSTALL] is the directory name of
    whatever [getExecutablePath("bun")] returned, when that is a
    non-empty string; when it is [undefined] or empty the variable keeps
    its inherited value.  When the result is the bare fallback name
    (development mode, or a packaged build whose [bun] file is missing)
    the variable is [dirname("bun")], not an install directory. *)
Theorem bun_getSDKExecutableOptions_BUN_INSTALL
    (w : World) (inherited : gmap string string) :
  exists tr options bunPath,
    BunRevision.getSDKExecutableOptions w inherited = (tr, Return options)
    /\ snd (BunRevision.getExecutablePath w "bun") = Return bunPath
    /\ options_env options !! "BUN_INSTALL"
       = match bunPath with
         | Some b => if JsString.truthy b then Some (dirname b)
                     else inherited !! "BUN_INSTALL"
         | None => inherited !! "BUN_INSTALL"
         end
    /\ (app_isPackaged w = false ->
        options_env options !! "BUN_INSTALL" = Some (dirname "bun"))
    /\ (forall rel, app_isPackaged w = true ->
                    BunRevision.declaredPath w "bun" = Some rel ->
                    fs_existsSync w (unpacked w rel) = false ->
                    options_env options !! "BUN_INSTALL" = Some (dirname "bun")).
Proof.
  destruct (bun_getSDKExecutableOptions_run w inherited) as (tr & p & ->).
  destruct (bun_getExecutablePath_run w "bun") as [trb Hb].
  eexists _, _, (BunRevision.resolved w "bun"). split; [reflexivity|].
  split; [rewrite Hb; reflexivity|]. cbn [options_env].
  split.
  { assert (Hin : (<["PATH" := p]> (processEnv w inherited)) !! "BUN_INSTALL"
                  = inherited !! "BUN_INSTALL").
    { rewrite lookup_insert_ne by discriminate.
      apply processEnv_other. discriminate. }
    destruct (defined (BunRevision.resolved w "uv"));
      rewrite ?(lookup_insert_ne _ "UV_PYTHON_PREFERENCE") by discriminate;
      (destruct (BunRevision.resolved w "bun") as [b|]; [|exact Hin]);
      (destruct (JsString.truthy b); [apply lookup_insert_eq|exact Hin]). }
  assert (Hbare : BunRevision.resolved w "bun" = Some "bun" ->
            (if defined (BunRevision.resolved w "uv")
             then <["UV_PYTHON_PREFERENCE" := "only-system"]>
                    (match BunRevision.resolved w "bun" with
                     | Some b => if JsString.truthy b
                                 then <["BUN_INSTALL" := dirname b]>
                                        (<["PATH" := p]> (processEnv w inherited))
                                 else <["PATH" := p]> (processEnv w inherited)
                     | None => <["PATH" := p]> (processEnv w inherited)
                     end)
             else (match BunRevision.resolved w "bun" with
                   | Some b => if JsString.truthy b
                               then <["BUN_INSTALL" := dirname b]>
                                      (<["PATH" := p]> (processEnv w inherited))
                               else <["PATH" := p]> (processEnv w inherited)
                   | None => <["PATH" := p]> (processEnv w inherited)
                   end)) !! "BUN_INSTALL" = Some (dirname "bun")).
  { intros ->. cbn [JsString.truthy String.eqb Ascii.eqb negb].
    destruct (defined (BunRevision.resolved w "uv"));
      rewrite ?(lookup_insert_ne _ "UV_PYTHON_PREFERENCE") by discriminate;
      apply lookup_insert_eq. }
  split.
  - intros Hdev. apply Hbare. unfold BunRevision.resolved. rewrite Hdev. reflexivity.
  - intros rel Hpk Hdecl Hex. apply Hbare.
    unfold BunRevision.resolved, BunRevision.resolution.
    rewrite Hpk, Hdecl, Hex. reflexivity.
Qed.

(** X14: in the earlier revision a missing bundle file makes [node] and
    [bun] fall back to the bare name and [uv] resolve to [undefined]. *)
Theorem bun_getExecutablePath_missing_file (w : World) (executable rel : string) :
  app_isPackaged w = true ->
  BunRevision.declaredPath w executable = Some rel ->
  fs_existsSync w (unpacked w rel) = false ->
  snd (BunRevision.getExecutablePath w executable)
    = Return (if String.eqb executable "uv" then None else Some executable)
  /\ fsEvents (fst (BunRevision.getExecutablePath w executable))
     = [ExistsSync (unpacked w rel)].
Proof.
  intros Hpk Hdecl Hex.
  unfold BunRevision.getExecutablePath, BunRevision.declaredPath in *.
  rewrite Hpk.
  destruct (find _ _) as [dep|] eqn:Hfind; [|discriminate].
  rewrite Hdecl. unfold existsSync. cbn. rewrite Hex. cbn.
  assert (Hname : executable = "bun" \/ executable = "uv" \/ executable = "node").
  { unfold BunRevision.PACKAGED_DEPENDENCIES in Hfind. cbn [find name] in Hfind.
    destruct (String.eqb_spec "bun" executable); [left; congruence|].
    destruct (String.eqb_spec "uv" executable); [right; left; congruence|].
    destruct (String.eqb_spec "node" executable);
      [right; right; congruence|discriminate]. }
  destruct Hname as [-> | [-> | ->]]; cbn; split; reflexivity.
Qed.

Lemma compiled_fold_settled (ticks : list Tick) (p : Probe) :
  (settled p = None -> timerArmed p = true) ->
  settled (fold_left Compiled.step ticks p)
  = match settled p with
    | Some v => Some v
    | None => firstVerdict ticks
    end.
Proof.
  revert p. induction ticks as [|t ticks IH]; intros p Hp; cbn [fold_left firstVerdict].
  - destruct (settled p); reflexivity.
  - rewrite IH.
    + destruct p as [r s sg a]. cbn in Hp.
      destruct t as [c| |c|]; destruct s as [v|]; cbn; try reflexivity.
      * destruct a; reflexivity.
      * rewrite Hp by reflexivity. reflexivity.
    + destruct p as [r s sg a]. cbn in Hp.
      destruct t as [c| |c|]; destruct s as [v|]; cbn; try discriminate;
        try exact Hp.
      * destruct a; cbn; discriminate.
      * rewrite Hp by reflexivity. cbn. discriminate.
Qed.

(** X15: the earlier probe (also the one of [packaging.js]): for a
    command name that is empty or holds a NUL character, [spawn] throws,
    the promise rejects and nothing is spawned.  For every other name
    the command is spawned once and, the probe having no [exit]
    listener, the promise takes the verdict of the first tick that is
    not an [exit]: [true] exactly for a [close] with code 0, and [false]
    when only [exit] events arrive before the timer. *)
Theorem bun_validateExecutable_first_verdict (w : World) (executable : string) :
  BunRevision.validateExecutable w executable =
    if spawnThrows executable
    then ([], Throw spawnError)
    else ([Spawn executable ["--version"]],
          Return (match firstVerdict (child_ticks w executable) with
                  | Some value => value
                  | None => false
                  end)).
Proof.
  unfold BunRevision.validateExecutable, Compiled.run.
  destruct (spawnThrows executable); [reflexivity|].
  rewrite compiled_fold_settled by reflexivity. cbn [settled spawned].
  assert (Hv : firstVerdict (child_ticks w executable ++ [TimerElapsed])%list
               = Some (match firstVerdict (child_ticks w executable) with
                       | Some value => value
                       | None => false
                       end)).
  { induction (child_ticks w executable) as [|t ticks IH]; [reflexivity|].
    cbn. destruct (compiledVerdict t); [reflexivity|exact IH]. }
  rewrite Hv. reflexivity.
Qed.

End MoreProperties.

(** * Properties of the environment file *)

(** ** Trimming *)

Lemma trimStart_plain (c : ascii) (t : string) :
  JsString.isWhiteSpace c = false ->
  JsString.trimStart (String c t) = String c t.
Proof. intros Hc. cbn. rewrite Hc. reflexivity. Qed.

Lemma trimEnd_blank_trimStart (s : string) :
  JsString.trimEnd s = "" -> JsString.trimStart s = "".
Proof.
  induction s as [|c t IH]; [reflexivity|]. cbn.
  destruct (JsString.trimEnd t) as [|c' t'] eqn:Ht.
  - destruct (JsString.isWhiteSpace c); [intros _; apply IH; reflexivity|discriminate].
  - discriminate.
Qed.

Lemma trimEnd_head (c : ascii) (t : string) :
  JsString.isWhiteSpace c = false ->
  exists r, JsString.trimEnd (String c t) = String c r.
Proof.
  intros Hc. cbn. destruct (JsString.trimEnd t); rewrite ?Hc; eauto.
Qed.

Lemma trimStart_trimEnd (s : string) :
  JsString.trimStart (JsString.trimEnd s) = JsString.trimEnd (JsString.trimStart s).
Proof.
  induction s as [|c t IH]; [reflexivity|].
  destruct (JsString.isWhiteSpace c) eqn:Hc.
  - cbn [JsString.trimStart]. rewrite Hc. cbn [JsString.trimEnd].
    destruct (JsString.trimEnd t) as [|c' t'] eqn:Ht.
    + rewrite Hc. cbn. rewrite (trimEnd_blank_trimStart t Ht). reflexivity.
    + cbn [JsString.trimStart]. rewrite Hc. exact IH.
  - rewrite (trimStart_plain c t Hc).
    destruct (trimEnd_head c t Hc) as [r ->]. apply trimStart_plain, Hc.
Qed.

Lemma trimEnd_idempotent (s : string) :
  JsString.trimEnd (JsString.trimEnd s) = JsString.trimEnd s.
Proof.
  induction s as [|c t IH]; [reflexivity|]. cbn.
  destruct (JsString.trimEnd t) as [|c' t'] eqn:Ht.
  - destruct (JsString.isWhiteSpace c) eqn:Hc; [reflexivity|]. cbn. rewrite Hc. reflexivity.
  - cbn [JsString.trimEnd] in *. rewrite IH. reflexivity.
Qed.

Lemma trim_trimEnd (s : string) :
  JsString.trim (JsString.trimEnd s) = JsString.trim s.
Proof.
  unfold JsString.trim. rewrite trimStart_trimEnd. apply trimEnd_idempotent.
Qed.

Lemma trimEnd_assignment (k v : string) :
  JsString.trimEnd (k ++ String EnvFile.EQUALS v)
  = k ++ String EnvFile.EQUALS (JsString.trimEnd v).
Proof.
  unfold EnvFile.EQUALS. induction k as [|c k IH].
  - change ("" ++ String "=" v) with (String "=" v).
    change ("" ++ String "=" (JsString.trimEnd v))
      with (String "=" (JsString.trimEnd v)).
    cbn. destruct (JsString.trimEnd v); reflexivity.
  - change (String c k ++ String "=" v) with (String c (k ++ String "=" v)).
    cbn [JsString.trimEnd]. rewrite IH.
    destruct k; reflexivity.
Qed.

Lemma trimEnd_cons (c : ascii) (t : string) :
  JsString.trimEnd (String c t)
  = match JsString.trimEnd t with
    | EmptyString =>
        if JsString.isWhiteSpace c then EmptyString else String c EmptyString
    | r => String c r
    end.
Proof. reflexivity. Qed.

Lemma dropTrailingQuote_cons (c b : ascii) (t : string) :
  EnvFile.dropTrailingQuote (String c (String b t))
  = String c (EnvFile.dropTrailingQuote (String b t)).
Proof. reflexivity. Qed.

Lemma trimEnd_lastChar (s : string) (c : ascii) :
  EnvFile.lastChar s = Some c -> JsString.isWhiteSpace c = false ->
  JsString.trimEnd s = s.
Proof.
  induction s as [|a t IH]; [discriminate|]. intros Hl Hc.
  destruct t as [|b t'].
  - cbn in Hl. injection Hl as ->. cbn. rewrite Hc. reflexivity.
  - change (EnvFile.lastChar (String a (String b t')))
      with (EnvFile.lastChar (String b t')) in Hl.
    rewrite trimEnd_cons, (IH Hl Hc). reflexivity.
Qed.

Lemma dropTrailingQuote_lastChar (s : string) (c : ascii) :
  EnvFile.lastChar s = Some c -> EnvFile.isQuote c = false ->
  EnvFile.dropTrailingQuote s = s.
Proof.
  induction s as [|a t IH]; [discriminate|]. intros Hl Hc.
  destruct t as [|b t'].
  - cbn in Hl. injection Hl as ->. cbn. rewrite Hc. reflexivity.
  - change (EnvFile.lastChar (String a (String b t')))
      with (EnvFile.lastChar (String b t')) in Hl.
    rewrite dropTrailingQuote_cons, (IH Hl Hc). reflexivity.
Qed.

Lemma noLineTerminator_trimEnd (s : string) :
  EnvFile.noLineTerminator s = true ->
  EnvFile.noLineTerminator (JsString.trimEnd s) = true.
Proof.
  induction s as [|c t IH]; [reflexivity|]. cbn.
  intros [Hc Ht]%andb_true_iff. specialize (IH Ht).
  destruct (JsString.trimEnd t) as [|c' t'].
  - destruct (JsString.isWhiteSpace c); [reflexivity|]. cbn. rewrite Hc. reflexivity.
  - cbn [EnvFile.noLineTerminator] in *. rewrite Hc. exact IH.
Qed.

(** ** The assignment pattern *)

Lemma breakAtEquals_assignment (k v : string) :
  EnvFile.breakAtEquals k = None ->
  EnvFile.breakAtEquals (k ++ String EnvFile.EQUALS v) = Some (k, v).
Proof.
  induction k as [|c k IH]; intros Hk.
  - reflexivity.
  - change (String c k ++ String EnvFile.EQUALS v)
      with (String c (k ++ String EnvFile.EQUALS v)).
    cbn [EnvFile.breakAtEquals] in *.
    destruct (Ascii.eqb c EnvFile.EQUALS); [discriminate|].
    destruct (EnvFile.breakAtEquals k) as [[a b]|]; [discriminate|].
    rewrite IH by reflexivity. reflexivity.
Qed.

Lemma validKey_facts (k : string) :
  EnvFile.validKey k = true ->
  exists c t,
    k = String c t
    /\ JsString.isWhiteSpace c = false
    /\ Ascii.eqb c "#" = false
    /\ JsString.trimEnd k = k
    /\ EnvFile.breakAtEquals k = None.
Proof.
  unfold EnvFile.validKey. intros [[H1 H2]%andb_true_iff H3]%andb_true_iff.
  destruct k as [|c t]; [discriminate|].
  apply andb_true_iff in H1 as [Hw Hh].
  apply negb_true_iff in Hw, Hh.
  exists c, t. split; [reflexivity|]. split; [exact Hw|]. split; [exact Hh|].
  split.
  - destruct (EnvFile.lastChar (String c t)) as [l|] eqn:Hl; [|discriminate].
    apply negb_true_iff in H2. exact (trimEnd_lastChar _ _ Hl H2).
  - destruct (EnvFile.breakAtEquals (String c t)); [discriminate|reflexivity].
Qed.

Lemma parseLine_key_value (envVars : gmap string string) (k v : string) :
  EnvFile.validKey k = true ->
  EnvFile.parseLine envVars (k ++ "=" ++ v)
  = if EnvFile.noLineTerminator (JsString.trimEnd v)
    then EnvFile.setProperty k (EnvFile.stripQuotes (JsString.trim v)) envVars
    else envVars.
Proof.
  intros Hk. destruct (validKey_facts k Hk) as (c & t & Hkeq & Hw & Hh & Hke & Hkb).
  unfold EnvFile.parseLine.
  assert (Htrim : JsString.trim (k ++ "=" ++ v)
                  = k ++ String EnvFile.EQUALS (JsString.trimEnd v)).
  { unfold JsString.trim. rewrite Hkeq.
    change (String c t ++ "=" ++ v) with (String c (t ++ String "=" v)).
    rewrite (trimStart_plain c _ Hw).
    change (String c (t ++ String "=" v))
      with (String c t ++ String EnvFile.EQUALS v).
    apply trimEnd_assignment. }
  rewrite Htrim.
  assert (Hhead : negb (JsString.truthy (k ++ String EnvFile.EQUALS (JsString.trimEnd v)))
                  || JsString.startsWith
                       (k ++ String EnvFile.EQUALS (JsString.trimEnd v)) "#"
                  = false).
  { rewrite Hkeq.
    change (String c t ++ String EnvFile.EQUALS (JsString.trimEnd v))
      with (String c (t ++ String EnvFile.EQUALS (JsString.trimEnd v))).
    unfold JsString.startsWith, JsString.truthy.
    cbn [String.eqb negb orb String.prefix].
    destruct (ascii_dec "#" c) as [<-|_]; [discriminate Hh|reflexivity]. }
  rewrite Hhead. unfold EnvFile.matchAssignment.
  rewrite (breakAtEquals_assignment k _ Hkb).
  assert (Htk : JsString.truthy k = true) by (rewrite Hkeq; reflexivity).
  rewrite Htk. cbn [andb].
  assert (Hkt : JsString.trim k = k).
  { unfold JsString.trim. rewrite Hkeq, (trimStart_plain c t Hw), <- Hkeq. exact Hke. }
  destruct (EnvFile.noLineTerminator (JsString.trimEnd v)); [|reflexivity].
  rewrite trim_trimEnd, Hkt. reflexivity.
Qed.

(** X16: a line [KEY=VALUE] whose key is well formed assigns to [KEY]
    the value trimmed and with one quote removed at each end.  The value
    is everything after the first [=], so it may itself contain [=];
    trailing white space, a carriage return included, is dropped with
    the line's; a line terminator left inside the value makes the whole
    line ignored. *)
Theorem parseLine_assignment (envVars : gmap string string) (k v : string) :
  EnvFile.validKey k = true ->
  EnvFile.parseLine envVars (k ++ "=" ++ v)
  = if EnvFile.noLineTerminator (JsString.trimEnd v)
    then EnvFile.setProperty k (EnvFile.stripQuotes (JsString.trim v)) envVars
    else envVars.
Proof. intros Hk. apply parseLine_key_value, Hk. Qed.

(** ** Lines *)

Lemma split_nonempty (sep : ascii) (s : string) :
  exists h r, JsString.split sep s = h :: r.
Proof.
  induction s as [|c t IH]; [eexists _, _; reflexivity|]. cbn.
  destruct (Ascii.eqb c sep); [eexists _, _; reflexivity|].
  destruct IH as (h & r & ->). eexists _, _; reflexivity.
Qed.

Lemma split_append (sep : ascii) (a b : string) :
  JsString.split sep (a ++ String sep b)
  = (JsString.split sep a ++ JsString.split sep b)%list.
Proof.
  induction a as [|c t IH].
  - change ("" ++ String sep b) with (String sep b). cbn.
    rewrite Ascii.eqb_refl. reflexivity.
  - change (String c t ++ String sep b) with (String c (t ++ String sep b)).
    cbn [JsString.split]. rewrite IH.
    destruct (Ascii.eqb c sep); [reflexivity|].
    destruct (split_nonempty sep t) as (h & r & ->). reflexivity.
Qed.

Lemma split_join (sep : ascii) (l : string) (lines : list string) :
  JsString.split sep (JsString.join (String sep "") (l :: lines))
  = concat (map (JsString.split sep) (l :: lines)).
Proof.
  revert l. induction lines as [|l' lines IH]; intros l.
  - cbn. rewrite app_nil_r. reflexivity.
  - change (JsString.join (String sep "") (l :: l' :: lines))
      with (l ++ String sep "" ++ JsString.join (String sep "") (l' :: lines)).
    change (String sep "" ++ JsString.join (String sep "") (l' :: lines))
      with (String sep (JsString.join (String sep "") (l' :: lines))).
    rewrite split_append, IH. reflexivity.
Qed.

Lemma split_singleLine (s : string) :
  singleLine s = true -> JsString.split LF s = [s].
Proof.
  induction s as [|c t IH]; [reflexivity|]. cbn.
  intros [Hc Ht]%andb_true_iff. apply negb_true_iff in Hc.
  rewrite Hc, (IH Ht). reflexivity.
Qed.

Lemma split_join_singleLines (l : string) (lines : list string) :
  Forall (fun s => singleLine s = true) (l :: lines) ->
  JsString.split LF (JsString.join (String LF "") (l :: lines)) = l :: lines.
Proof.
  intros Hall. rewrite split_join.
  induction Hall as [|s rest Hs Hrest IH]; [reflexivity|].
  cbn [map concat]. rewrite (split_singleLine s Hs), IH. reflexivity.
Qed.

Lemma noLineTerminator_singleLine (s : string) :
  EnvFile.noLineTerminator s = true -> singleLine s = true.
Proof.
  induction s as [|c t IH]; [reflexivity|]. cbn.
  intros [Hc Ht]%andb_true_iff. rewrite (IH Ht), andb_true_r.
  unfold EnvFile.isLineTerminator in Hc.
  apply negb_true_iff, orb_false_iff in Hc as [Hc _]. rewrite Hc. reflexivity.
Qed.

Lemma singleLine_append (a b : string) :
  singleLine a = true -> singleLine b = true -> singleLine (a ++ b) = true.
Proof.
  induction a as [|c t IH]; intros Ha Hb; [exact Hb|].
  change (String c t ++ b) with (String c (t ++ b)). cbn in *.
  apply andb_true_iff in Ha as [Hc Ht]. rewrite Hc, (IH Ht Hb). reflexivity.
Qed.

(** ** Clean values *)

Lemma clean_facts (v : string) :
  EnvFile.clean v = true ->
  JsString.truthy v = true
  /\ EnvFile.noLineTerminator v = true
  /\ JsString.trimEnd v = v
  /\ JsString.trim v = v
  /\ EnvFile.stripQuotes v = v.
Proof.
  unfold EnvFile.clean. intros [[H1 H2]%andb_true_iff H3]%andb_true_iff.
  destruct v as [|c t]; [discriminate|].
  destruct (EnvFile.lastChar (String c t)) as [l|] eqn:Hl; [|discriminate].
  unfold EnvFile.plain in H1, H2.
  apply andb_true_iff in H1 as [Hw Hq]. apply andb_true_iff in H2 as [Hlw Hlq].
  apply negb_true_iff in Hw, Hq, Hlw, Hlq.
  assert (Hte : JsString.trimEnd (String c t) = String c t)
    by exact (trimEnd_lastChar _ _ Hl Hlw).
  split; [reflexivity|]. split; [exact H3|]. split; [exact Hte|].
  assert (Htr : JsString.trim (String c t) = String c t).
  { unfold JsString.trim. rewrite (trimStart_plain c t Hw). exact Hte. }
  split; [exact Htr|].
  unfold EnvFile.stripQuotes, EnvFile.dropLeadingQuote. rewrite Hq.
  exact (dropTrailingQuote_lastChar _ _ Hl Hlq).
Qed.

Lemma parseLine_clean (envVars : gmap string string) (k v : string) :
  EnvFile.validKey k = true ->
  String.eqb k "__proto__" = false ->
  EnvFile.clean v = true ->
  EnvFile.parseLine envVars (k ++ "=" ++ v) = <[k := v]> envVars.
Proof.
  intros Hk Hp Hv. rewrite (parseLine_key_value envVars k v Hk).
  destruct (clean_facts v Hv) as (_ & Hnl & Hte & Htr & Hsq).
  rewrite Hte, Hnl, Htr, Hsq. unfold EnvFile.setProperty. rewrite Hp. reflexivity.
Qed.

Lemma parseLine_skipped (envVars : gmap string string) (line : string) :
  negb (JsString.truthy (JsString.trim line))
  || JsString.startsWith (JsString.trim line) "#" = true ->
  EnvFile.parseLine envVars line = envVars.
Proof. intros H. unfold EnvFile.parseLine. rewrite H. reflexivity. Qed.

(** ** Writing, then reading *)

Lemma storable_truthy (v : string) :
  storable v -> JsString.truthy v = true -> EnvFile.clean v = true.
Proof. intros [->|Hc] Ht; [discriminate|exact Hc]. Qed.

Lemma parse_entry (envVars m : gmap string string) (k comment : string) :
  EnvFile.validKey k = true ->
  String.eqb k "__proto__" = false ->
  negb (JsString.truthy (JsString.trim comment))
  || JsString.startsWith (JsString.trim comment) "#" = true ->
  (forall v, envVars !! k = Some v -> storable v) ->
  fold_left EnvFile.parseLine (EnvFile.entry envVars k comment) m = put envVars k m.
Proof.
  intros Hk Hp Hc Hv. unfold EnvFile.entry, put.
  destruct (envVars !! k) as [v|]; [|reflexivity].
  destruct (JsString.truthy v) eqn:Ht; [|reflexivity].
  cbn [fold_left]. rewrite (parseLine_skipped m comment Hc).
  rewrite (parseLine_clean m k v Hk Hp (storable_truthy v (Hv v eq_refl) Ht)).
  apply parseLine_skipped. reflexivity.
Qed.

Lemma entry_singleLine (envVars : gmap string string) (k comment : string) :
  singleLine k = true -> singleLine comment = true ->
  (forall v, envVars !! k = Some v -> storable v) ->
  Forall (fun s => singleLine s = true) (EnvFile.entry envVars k comment).
Proof.
  intros Hk Hc Hv. unfold EnvFile.entry.
  destruct (envVars !! k) as [v|]; [|constructor].
  destruct (JsString.truthy v) eqn:Ht; [|constructor].
  destruct (clean_facts v (storable_truthy v (Hv v eq_refl) Ht)) as (_ & Hnl & _).
  repeat constructor; [exact Hc|].
  apply singleLine_append; [exact Hk|].
  apply singleLine_append; [reflexivity|].
  apply noLineTerminator_singleLine, Hnl.
Qed.

Lemma parseEnv_written (envVars : gmap string string) :
  (forall k v, k ∈ EnvFile.KNOWN_KEYS -> envVars !! k = Some v -> storable v) ->
  EnvFile.parseEnv (JsString.join (String LF "") (EnvFile.envLines envVars))
  = put envVars "ANTHROPIC_API_TYPE"
      (put envVars "ANTHROPIC_MODEL"
         (put envVars "ANTHROPIC_BASE_URL"
            (put envVars "ANTHROPIC_AUTH_TOKEN" ∅))).
Proof.
  intros Hst.
  assert (Hk : forall k, k ∈ EnvFile.KNOWN_KEYS ->
                         forall v, envVars !! k = Some v -> storable v)
    by (intros k Hin v; apply Hst, Hin).
  unfold EnvFile.parseEnv, EnvFile.envLines.
  cbn [app]. rewrite split_join_singleLines.
  - cbn [fold_left]. rewrite !parseLine_skipped by reflexivity.
    rewrite !fold_left_app.
    rewrite !parse_entry
      by (first [reflexivity | apply Hk; repeat constructor]).
    reflexivity.
  - repeat (apply Forall_cons; split; [reflexivity|]).
    repeat (apply Forall_app; split);
      apply entry_singleLine;
      first [reflexivity | apply Hk; repeat constructor].
Qed.

Lemma lookup_put (envVars m : gmap string string) (k j : string) :
  put envVars k m !! j
  = if bool_decide (j = k)
    then match envVars !! k with
         | Some v => if JsString.truthy v then Some v else m !! j
         | None => m !! j
         end
    else m !! j.
Proof.
  unfold put. case_bool_decide as Hj.
  - subst j. destruct (envVars !! k) as [v|]; [|reflexivity].
    destruct (JsString.truthy v); [apply lookup_insert_eq|reflexivity].
  - destruct (envVars !! k) as [v|]; [|reflexivity].
    destruct (JsString.truthy v); [|reflexivity].
    apply lookup_insert_ne. congruence.
Qed.

Lemma lookup_written (envVars : gmap string string) (j : string) :
  put envVars "ANTHROPIC_API_TYPE"
    (put envVars "ANTHROPIC_MODEL"
       (put envVars "ANTHROPIC_BASE_URL"
          (put envVars "ANTHROPIC_AUTH_TOKEN" ∅))) !! j
  = kept envVars j.
Proof.
  rewrite !lookup_put, lookup_empty. unfold kept, EnvFile.KNOWN_KEYS.
  destruct (decide (j = "ANTHROPIC_API_TYPE")) as [->|H1];
    [|destruct (decide (j = "ANTHROPIC_MODEL")) as [->|H2];
      [|destruct (decide (j = "ANTHROPIC_BASE_URL")) as [->|H3];
        [|destruct (decide (j = "ANTHROPIC_AUTH_TOKEN")) as [->|H4]]]];
    rewrite ?bool_decide_eq_true_2 by first [reflexivity | repeat constructor];
    rewrite ?bool_decide_eq_false_2
      by first [discriminate | assumption
               | rewrite !elem_of_cons, elem_of_nil; tauto];
    repeat match goal with
           | |- context [envVars !! ?k] => destruct (envVars !! k) as [?|]
           | |- context [JsString.truthy ?v] => destruct (JsString.truthy v)
           end; reflexivity.
Qed.

Lemma readEnvFile_written
    (f : EnvFile.Faults) (envVars : gmap string string) (d : EnvFile.Disk) :
  EnvFile.writeFault f = None ->
  EnvFile.readFault f = None ->
  EnvFile.userDataExists d = true \/ EnvFile.mkdirFault f = None ->
  (forall k v, k ∈ EnvFile.KNOWN_KEYS -> envVars !! k = Some v -> storable v) ->
  exists tr tr' r,
    snd (EnvFile.writeEnvFile f envVars d) = (tr, Return tt)
    /\ EnvFile.readEnvFile f (fst (EnvFile.writeEnvFile f envVars d)) = (tr', Return r)
    /\ forall k, r !! k = kept envVars k.
Proof.
  intros Hw Hr Hm Hst. unfold EnvFile.writeEnvFile.
  assert (Hmk : (if EnvFile.userDataExists d then None else EnvFile.mkdirFault f) = None).
  { destruct Hm as [->| ->]; [reflexivity|]. destruct (EnvFile.userDataExists d); reflexivity. }
  rewrite Hmk, Hw. cbn [fst snd].
  unfold EnvFile.readEnvFile. cbn [EnvFile.envFile]. rewrite Hr.
  eexists _, _, _. split; [reflexivity|]. split; [reflexivity|].
  intros k. rewrite (parseEnv_written envVars Hst). apply lookup_written.
Qed.

(** X17: when no file-system call fails and every value of the four
    known variables is empty or clean, reading the file that
    [writeEnvFile] wrote gives back exactly the known variables with a
    non-empty value: every other variable of the argument, and every
    empty one, is gone. *)
Theorem readEnvFile_after_writeEnvFile
    (f : EnvFile.Faults) (envVars : gmap string string) (d : EnvFile.Disk) :
  EnvFile.writeFault f = None ->
  EnvFile.readFault f = None ->
  EnvFile.userDataExists d = true \/ EnvFile.mkdirFault f = None ->
  (forall k v, k ∈ EnvFile.KNOWN_KEYS -> envVars !! k = Some v -> storable v) ->
  exists tr tr' r,
    snd (EnvFile.writeEnvFile f envVars d) = (tr, Return tt)
    /\ EnvFile.readEnvFile f (fst (EnvFile.writeEnvFile f envVars d)) = (tr', Return r)
    /\ forall k, r !! k = kept envVars k.
Proof.
  intros Hw Hr Hm Hst. exact (readEnvFile_written f envVars d Hw Hr Hm Hst).
Qed.

Lemma saved_storable (config : EnvFile.ApiConfig) (envVars : gmap string string) :
  storable (EnvFile.apiKey config) ->
  storable (EnvFile.baseURL config) ->
  storable (EnvFile.model config) ->
  (forall t, EnvFile.apiType config = Some t -> storable t) ->
  envVars = (if defined (EnvFile.apiType config)
             then <["ANTHROPIC_API_TYPE" := default "" (EnvFile.apiType config)]>
                    (<["ANTHROPIC_MODEL" := EnvFile.model config]>
                       (<["ANTHROPIC_BASE_URL" := EnvFile.baseURL config]>
                          (<["ANTHROPIC_AUTH_TOKEN" := EnvFile.apiKey config]> ∅)))
             else <["ANTHROPIC_MODEL" := EnvFile.model config]>
                    (<["ANTHROPIC_BASE_URL" := EnvFile.baseURL config]>
                       (<["ANTHROPIC_AUTH_TOKEN" := EnvFile.apiKey config]> ∅))) ->
  (forall k v, k ∈ EnvFile.KNOWN_KEYS -> envVars !! k = Some v -> storable v)
  /\ envVars !! "ANTHROPIC_AUTH_TOKEN" = Some (EnvFile.apiKey config)
  /\ envVars !! "ANTHROPIC_BASE_URL" = Some (EnvFile.baseURL config)
  /\ envVars !! "ANTHROPIC_MODEL" = Some (EnvFile.model config)
  /\ envVars !! "ANTHROPIC_API_TYPE"
     = (if defined (EnvFile.apiType config) then EnvFile.apiType config else None).
Proof.
  intros Ha Hb Hm Ht ->.
  destruct (EnvFile.apiType config) as [t|] eqn:Hty; cbn [defined default].
  - destruct (JsString.truthy t) eqn:Htt.
    + split.
      * intros k v Hin. unfold EnvFile.KNOWN_KEYS in Hin.
        rewrite !elem_of_cons, elem_of_nil in Hin.
        destruct Hin as [->|[->|[->|[->|[]]]]];
          rewrite ?lookup_insert_eq, ?(lookup_insert_ne _ _ _ _) by discriminate;
          rewrite ?lookup_insert_eq; intros [= <-]; auto.
      * repeat split;
          rewrite ?lookup_insert_eq, ?(lookup_insert_ne _ _ _ _) by discriminate;
          rewrite ?lookup_insert_eq; reflexivity.
    + split.
      * intros k v Hin. unfold EnvFile.KNOWN_KEYS in Hin.
        rewrite !elem_of_cons, elem_of_nil in Hin.
        destruct Hin as [->|[->|[->|[->|[]]]]];
          rewrite ?lookup_insert_eq, ?(lookup_insert_ne _ _ _ _) by discriminate;
          rewrite ?lookup_insert_eq, ?lookup_empty; intros [= <-]; auto.
      * repeat split;
          rewrite ?lookup_insert_eq, ?(lookup_insert_ne _ _ _ _) by discriminate;
          rewrite ?lookup_insert_eq, ?lookup_empty; reflexivity.
  - split.
    + intros k v Hin. unfold EnvFile.KNOWN_KEYS in Hin.
      rewrite !elem_of_cons, elem_of_nil in Hin.
      destruct Hin as [->|[->|[->|[->|[]]]]];
        rewrite ?lookup_insert_eq, ?(lookup_insert_ne _ _ _ _) by discriminate;
        rewrite ?lookup_insert_eq, ?lookup_empty; intros [= <-]; auto.
    + repeat split;
        rewrite ?lookup_insert_eq, ?(lookup_insert_ne _ _ _ _) by discriminate;
        rewrite ?lookup_insert_eq, ?lookup_empty; reflexivity.
Qed.

(** X18: saving a configuration and loading it back.  When no
    file-system call fails and every field is empty or clean,
    [loadApiConfigFromEnv] after [saveApiConfigToEnv] returns the saved
    key, base URL and model unchanged, with the API type defaulting to
    [anthropic] when it was absent or empty; and it returns [null] as
    soon as one of the three required fields was saved empty. *)
Theorem loadApiConfigFromEnv_after_save
    (f : EnvFile.Faults) (config : EnvFile.ApiConfig) (d : EnvFile.Disk) :
  EnvFile.writeFault f = None ->
  EnvFile.readFault f = None ->
  EnvFile.userDataExists d = true \/ EnvFile.mkdirFault f = None ->
  storable (EnvFile.apiKey config) ->
  storable (EnvFile.baseURL config) ->
  storable (EnvFile.model config) ->
  (forall t, EnvFile.apiType config = Some t -> storable t) ->
  snd (snd (EnvFile.saveApiConfigToEnv f config d)) = Return tt
  /\ snd (EnvFile.loadApiConfigFromEnv f
            (fst (EnvFile.saveApiConfigToEnv f config d)))
     = Return
         (if JsString.truthy (EnvFile.apiKey config)
             && JsString.truthy (EnvFile.baseURL config)
             && JsString.truthy (EnvFile.model config)
          then Some {| EnvFile.apiKey := EnvFile.apiKey config;
                       EnvFile.baseURL := EnvFile.baseURL config;
                       EnvFile.model := EnvFile.model config;
                       EnvFile.apiType :=
                         Some (if defined (EnvFile.apiType config)
                               then default "" (EnvFile.apiType config)
                               else "anthropic") |}
          else None).
Proof.
  intros Hw Hr Hm Ha Hb Hmo Ht.
  unfold EnvFile.saveApiConfigToEnv.
  match goal with
  | |- context [EnvFile.writeEnvFile f ?e d] => remember e as envVars eqn:He
  end.
  destruct (saved_storable config envVars Ha Hb Hmo Ht He)
    as (Hst & Hk1 & Hk2 & Hk3 & Hk4).
  destruct (readEnvFile_written f envVars d Hw Hr Hm Hst)
    as (tr & tr' & r & Hwrite & Hread & Hlook).
  rewrite Hwrite. split; [reflexivity|].
  unfold EnvFile.loadApiConfigFromEnv. rewrite Hread. cbn [bind].
  rewrite !Hlook. unfold kept.
  rewrite !bool_decide_eq_true_2 by (repeat constructor).
  rewrite Hk1, Hk2, Hk3, Hk4.
  assert (Hty : (if defined
                      match (if defined (EnvFile.apiType config)
                             then EnvFile.apiType config else None) with
                      | Some v => if JsString.truthy v then Some v else None
                      | None => None
                      end
                 then default ""
                        match (if defined (EnvFile.apiType config)
                               then EnvFile.apiType config else None) with
                        | Some v => if JsString.truthy v then Some v else None
                        | None => None
                        end
                 else "anthropic")
                = (if defined (EnvFile.apiType config)
                   then default "" (EnvFile.apiType config) else "anthropic")).
  { destruct (EnvFile.apiType config) as [t|]; [|reflexivity].
    unfold defined. destruct (JsString.truthy t) eqn:Htt; [|reflexivity].
    rewrite Htt. cbn [default]. rewrite Htt. reflexivity. }
  destruct (JsString.truthy (EnvFile.apiKey config)) eqn:E1;
    destruct (JsString.truthy (EnvFile.baseURL config)) eqn:E2;
    destruct (JsString.truthy (EnvFile.model config)) eqn:E3;
    cbn [defined negb orb andb]; rewrite ?E1, ?E2, ?E3;
    cbn [defined negb orb andb bind ret log emit snd app default];
    try reflexivity.
  rewrite Hty. reflexivity.
Qed.

Lemma readEnvFile_returns (f : EnvFile.Faults) (d : EnvFile.Disk) :
  exists tr r,
    EnvFile.readEnvFile f d = (tr, Return r)
    /\ (EnvFile.envFile d = None -> r = ∅)
    /\ (forall e, EnvFile.readFault f = Some e -> r = ∅)
    /\ (forall content, EnvFile.envFile d = Some content ->
                        EnvFile.readFault f = None ->
                        r = EnvFile.parseEnv content).
Proof.
  unfold EnvFile.readEnvFile.
  destruct (EnvFile.envFile d) as [stored|].
  - destruct (EnvFile.readFault f) as [e|]; cbn.
    + eexists _, _. split; [reflexivity|]. repeat split; try discriminate.
    + eexists _, _. split; [reflexivity|]. repeat split; try discriminate.
      intros content [= <-] _. reflexivity.
  - eexists _, _. split; [reflexivity|]. repeat split; try discriminate.
Qed.

(** X19: [readEnvFile] never throws: a missing file and a failing read
    both give the empty record (the failure is logged at error level),
    and [loadApiConfigFromEnv] then returns [null]. *)
Theorem readEnvFile_never_throws (f : EnvFile.Faults) (d : EnvFile.Disk) :
  exists tr r,
    EnvFile.readEnvFile f d = (tr, Return r)
    /\ (EnvFile.envFile d = None -> r = ∅)
    /\ (forall e, EnvFile.envFile d <> None -> EnvFile.readFault f = Some e ->
                  r = ∅
                  /\ In (Log error "[env-file] Failed to read .env file:" (Some e)) tr)
    /\ (r = ∅ -> snd (EnvFile.loadApiConfigFromEnv f d) = Return None).
Proof.
  unfold EnvFile.loadApiConfigFromEnv, EnvFile.readEnvFile.
  destruct (EnvFile.envFile d) as [stored|].
  - destruct (EnvFile.readFault f) as [e|]; cbn.
    + eexists _, _. split; [reflexivity|]. split; [discriminate|]. split.
      * intros e' _ [= <-]. split; [reflexivity|]. left. reflexivity.
      * intros _. reflexivity.
    + eexists _, _. split; [reflexivity|]. split; [discriminate|]. split.
      * intros e' _ He. discriminate He.
      * intros ->. reflexivity.
  - cbn. eexists _, _. split; [reflexivity|]. split; [reflexivity|]. split.
    + intros e Hne. contradiction.
    + intros _. reflexivity.
Qed.

(** X20: when [mkdirSync] or [writeFileSync] fails, [writeEnvFile]
    throws a new error whose message is the original one behind the
    fixed prefix, after logging at error level.  The stored file is left
    as it was when [mkdirSync] fails or [writeFileSync] fails at the
    open; when [writeFileSync] fails after the open, the previous
    content is gone and the file holds the characters of the new content
    written until then, none when it failed right after truncating. *)
Theorem writeEnvFile_failure
    (f : EnvFile.Faults) (envVars : gmap string string) (d : EnvFile.Disk) :
  (forall e,
      EnvFile.userDataExists d = false ->
      EnvFile.mkdirFault f = Some e ->
      EnvFile.writeEnvFile f envVars d
      = (d, ([Log error "[env-file] Failed to write .env file:" (Some e)],
             Throw {| message := "保存环境变量文件失败: " ++ message e |})))
  /\ (forall e,
        EnvFile.userDataExists d = true \/ EnvFile.mkdirFault f = None ->
        EnvFile.writeFault f = Some (EnvFile.FailsAtOpen e) ->
        snd (EnvFile.writeEnvFile f envVars d)
        = ([Log error "[env-file] Failed to write .env file:" (Some e)],
           Throw {| message := "保存环境变量文件失败: " ++ message e |})
        /\ EnvFile.envFile (fst (EnvFile.writeEnvFile f envVars d))
           = EnvFile.envFile d)
  /\ (forall written e,
        EnvFile.userDataExists d = true \/ EnvFile.mkdirFault f = None ->
        EnvFile.writeFault f = Some (EnvFile.FailsAfterOpen written e) ->
        snd (EnvFile.writeEnvFile f envVars d)
        = ([Log error "[env-file] Failed to write .env file:" (Some e)],
           Throw {| message := "保存环境变量文件失败: " ++ message e |})
        /\ EnvFile.envFile (fst (EnvFile.writeEnvFile f envVars d))
           = Some (String.substring 0 written
                     (JsString.join (String LF "") (EnvFile.envLines envVars)))
        /\ (written = 0%nat ->
            EnvFile.readEnvFile EnvFile.noFaults
              (fst (EnvFile.writeEnvFile f envVars d))
            = ([Log debug "[env-file] Loaded environment variables:" None],
               Return ∅))).
Proof.
  assert (Hmk : EnvFile.userDataExists d = true \/ EnvFile.mkdirFault f = None ->
                (if EnvFile.userDataExists d then None else EnvFile.mkdirFault f)
                = None).
  { intros [->| ->]; [reflexivity|].
    destruct (EnvFile.userDataExists d); reflexivity. }
  unfold EnvFile.writeEnvFile. split; [|split].
  - intros e Hd Hm. rewrite Hd, Hm. reflexivity.
  - intros e Hm Hw. rewrite (Hmk Hm), Hw. split; reflexivity.
  - intros written e Hm Hw. rewrite (Hmk Hm), Hw.
    split; [reflexivity|]. split; [reflexivity|].
    intros ->. reflexivity.
Qed.

(** X21: values are written as they are, so a line feed inside one
    starts a new line of the file: a model saved as a clean name
    followed by a line feed and [ANTHROPIC_AUTH_TOKEN=x] loads back as
    that name alone, with the API key replaced by [x]. *)
Theorem saveApiConfigToEnv_line_feed_injects
    (d : EnvFile.Disk) (key url name injected : string) :
  EnvFile.clean key = true ->
  EnvFile.clean url = true ->
  EnvFile.clean name = true ->
  EnvFile.clean injected = true ->
  let config :=
    {| EnvFile.apiKey := key;
       EnvFile.baseURL := url;
       EnvFile.model := name ++ String LF ("ANTHROPIC_AUTH_TOKEN=" ++ injected);
       EnvFile.apiType := None |} in
  snd (EnvFile.loadApiConfigFromEnv EnvFile.noFaults
         (fst (EnvFile.saveApiConfigToEnv EnvFile.noFaults config d)))
  = Return (Some {| EnvFile.apiKey := injected;
                    EnvFile.baseURL := url;
                    EnvFile.model := name;
                    EnvFile.apiType := Some "anthropic" |}).
Proof.
  intros Hkey Hurl Hname Hinj config.
  destruct (clean_facts key Hkey) as (Tk & Nk & _).
  destruct (clean_facts url Hurl) as (Tu & Nu & _).
  destruct (clean_facts name Hname) as (Tn & Nn & _).
  destruct (clean_facts injected Hinj) as (Ti & Ni & _).
  assert (Tm : JsString.truthy
                 (name ++ String LF ("ANTHROPIC_AUTH_TOKEN=" ++ injected)) = true).
  { destruct name; [discriminate|reflexivity]. }
  unfold EnvFile.loadApiConfigFromEnv, EnvFile.saveApiConfigToEnv,
    EnvFile.writeEnvFile, EnvFile.readEnvFile, config.
  cbn [EnvFile.apiKey EnvFile.baseURL EnvFile.model EnvFile.apiType defined
       EnvFile.noFaults EnvFile.mkdirFault EnvFile.writeFault EnvFile.readFault].
  assert (Hmk : (if EnvFile.userDataExists d then None else @None JsError) = None)
    by (destruct (EnvFile.userDataExists d); reflexivity).
  rewrite Hmk. cbn [fst EnvFile.envFile try_catch bind ret].
  assert (Hparse :
    EnvFile.parseEnv
      (JsString.join (String LF "")
         (EnvFile.envLines
            (<["ANTHROPIC_MODEL" :=
                 name ++ String LF ("ANTHROPIC_AUTH_TOKEN=" ++ injected)]>
               (<["ANTHROPIC_BASE_URL" := url]>
                  (<["ANTHROPIC_AUTH_TOKEN" := key]> ∅)))))
    = <["ANTHROPIC_AUTH_TOKEN" := injected]>
        (<["ANTHROPIC_MODEL" := name]>
           (<["ANTHROPIC_BASE_URL" := url]>
              (<["ANTHROPIC_AUTH_TOKEN" := key]> ∅)))).
  { unfold EnvFile.parseEnv, EnvFile.envLines, EnvFile.entry.
    rewrite lookup_insert_ne by discriminate.
    rewrite lookup_insert_ne by discriminate.
    rewrite lookup_insert_eq, Tk.
    rewrite lookup_insert_ne by discriminate.
    rewrite lookup_insert_eq, Tu.
    rewrite lookup_insert_eq, Tm.
    rewrite lookup_insert_ne by discriminate.
    rewrite lookup_insert_ne by discriminate.
    rewrite lookup_insert_ne by discriminate.
    rewrite lookup_empty.
    cbn [app]. rewrite split_join. cbn [map concat].
    change ("ANTHROPIC_MODEL" ++ "=" ++
            name ++ String LF ("ANTHROPIC_AUTH_TOKEN=" ++ injected))
      with (("ANTHROPIC_MODEL=" ++ name)
            ++ String LF ("ANTHROPIC_AUTH_TOKEN=" ++ injected)).
    rewrite split_append.
    rewrite !split_singleLine
      by (first [ reflexivity
                | repeat (apply singleLine_append;
                          [first [reflexivity
                                 | apply noLineTerminator_singleLine; assumption]|]);
                  first [reflexivity
                        | apply noLineTerminator_singleLine; assumption] ]).
    cbn [app fold_left].
    rewrite !parseLine_skipped by reflexivity.
    change ("ANTHROPIC_MODEL=" ++ name) with ("ANTHROPIC_MODEL" ++ "=" ++ name).
    change ("ANTHROPIC_AUTH_TOKEN=" ++ injected)
      with ("ANTHROPIC_AUTH_TOKEN" ++ "=" ++ injected).
    rewrite !parseLine_clean by first [reflexivity | assumption].
    reflexivity. }
  rewrite Hparse.
  set (loaded := <["ANTHROPIC_AUTH_TOKEN" := injected]>
                   (<["ANTHROPIC_MODEL" := name]>
                      (<["ANTHROPIC_BASE_URL" := url]>
                         (<["ANTHROPIC_AUTH_TOKEN" := key]> ∅)))).
  assert (H1 : loaded !! "ANTHROPIC_AUTH_TOKEN" = Some injected)
    by apply lookup_insert_eq.
  assert (H2 : loaded !! "ANTHROPIC_BASE_URL" = Some url).
  { unfold loaded. rewrite !lookup_insert_ne by discriminate. apply lookup_insert_eq. }
  assert (H3 : loaded !! "ANTHROPIC_MODEL" = Some name).
  { unfold loaded. rewrite lookup_insert_ne by discriminate. apply lookup_insert_eq. }
  assert (H4 : loaded !! "ANTHROPIC_API_TYPE" = None).
  { unfold loaded. rewrite !lookup_insert_ne by discriminate. apply lookup_empty. }
  clearbody loaded.
  unfold try_catch, bind, log, emit, ret. cbn [app snd].
  rewrite H1, H2, H3, H4. cbn [defined default]. rewrite Ti, Tu, Tn. reflexivity.
Qed.

(** * The properties at concrete inputs, with POSIX paths *)

#[local] Existing Instance PosixPath.posix.

Lemma getExecutablePath_development_witness :
  app_isPackaged devWorld = false
  /\ (getExecutablePath devWorld "uv" = ([], Return (Some "uv"))
      /\ ~ touchesFs (fst (getExecutablePath devWorld "uv"))).
Proof.
  split; [reflexivity|].
  apply (getExecutablePath_development devWorld "uv"). reflexivity.
Defined.

Lemma getExecutablePath_large_file_witness :
  unpacked binaryWorld nodeLinuxRelative = nodeLinux
  /\ fs_stat binaryWorld nodeLinux = inr {| size := 5000000 |}
  /\ (snd (getExecutablePath binaryWorld "node")
        = Return (Some (unpacked binaryWorld nodeLinuxRelative))
      /\ ~ readsFile (fst (getExecutablePath binaryWorld "node"))).
Proof.
  split; [vm_compute; reflexivity|]. split; [vm_compute; reflexivity|].
  apply (getExecutablePath_large_file binaryWorld "node" nodeLinuxRelative 5000000).
  - reflexivity.
  - vm_compute; reflexivity.
  - vm_compute; reflexivity.
  - vm_compute; reflexivity.
  - lia.
Defined.

Lemma getExecutablePath_never_throws_witness :
  app_isPackaged unreadableWorld = true
  /\ validationFails unreadableWorld nodeLinux
  /\ exists tr r,
       getExecutablePath unreadableWorld "node" = (tr, Return r)
       /\ match declaredPath unreadableWorld "node" with
          | None => r = None /\ exists msg, In (Log error msg None) tr
          | Some rel =>
              (r = Some (unpacked unreadableWorld rel) \/ r = Some "node"
               \/ (r = None
                   /\ fs_existsSync unreadableWorld (unpacked unreadableWorld rel) = false
                   /\ "node" <> "node"))
              /\ (fs_existsSync unreadableWorld (unpacked unreadableWorld rel) = true ->
                  validationFails unreadableWorld (unpacked unreadableWorld rel) ->
                  r = Some "node")
          end.
Proof.
  split; [reflexivity|]. split.
  - right. exists {| size := 20 |}, EACCES.
    split; [vm_compute; reflexivity|]. split; [reflexivity|vm_compute; reflexivity].
  - apply (getExecutablePath_never_throws unreadableWorld "node"). reflexivity.
Defined.

Lemma getExecutablePath_small_file_witness :
  fs_stat stubWorld nodeLinux = inr {| size := 20 |}
  /\ fs_readFile stubWorld nodeLinux = inr stubContent
  /\ (readsFile (fst (getExecutablePath stubWorld "node"))
      /\ snd (getExecutablePath stubWorld "node") =
           Return (Some (if JsString.startsWith stubContent "#!/bin/bash"
                            || JsString.includes stubContent "echo"
                         then "node" else unpacked stubWorld nodeLinuxRelative))
      /\ (stubContent = stubContent ->
          snd (getExecutablePath stubWorld "node") = Return (Some "node"))).
Proof.
  split; [vm_compute; reflexivity|]. split; [vm_compute; reflexivity|].
  apply (getExecutablePath_small_file stubWorld "node" nodeLinuxRelative 20 stubContent).
  - reflexivity.
  - vm_compute; reflexivity.
  - vm_compute; reflexivity.
  - vm_compute; reflexivity.
  - lia.
  - vm_compute; reflexivity.
Defined.

(** C1, against the claim as stated: a small file that contains [echo]
    but does not start with a shebang satisfies only one of the two
    conditions, and still resolves to the bare name, not to its absolute
    path. *)
Lemma getExecutablePath_echo_only_falls_back :
  fs_existsSync echoWorld nodeLinux = true
  /\ fs_stat echoWorld nodeLinux = inr {| size := 7 |}
  /\ fs_readFile echoWorld nodeLinux = inr "echo hi"
  /\ JsString.startsWith "echo hi" "#!/bin/bash" = false
  /\ JsString.includes "echo hi" "echo" = true
  /\ unpacked echoWorld nodeLinuxRelative = nodeLinux
  /\ snd (getExecutablePath echoWorld "node") = Return (Some "node")
  /\ snd (getExecutablePath echoWorld "node") <> Return (Some nodeLinux).
Proof.
  repeat split; try (vm_compute; reflexivity).
  vm_compute. discriminate.
Defined.

Lemma getExecutablePath_node_defined_witness :
  app_isPackaged emptyBundleWorld = true
  /\ In (process_platform emptyBundleWorld) ["darwin"; "linux"; "win32"]
  /\ exists rel,
       declaredPath emptyBundleWorld "node" = Some rel
       /\ (snd (getExecutablePath emptyBundleWorld "node")
             = Return (Some (unpacked emptyBundleWorld rel))
           \/ snd (getExecutablePath emptyBundleWorld "node") = Return (Some "node")).
Proof.
  split; [reflexivity|]. split; [right; left; reflexivity|].
  apply (getExecutablePath_node_defined emptyBundleWorld).
  - reflexivity.
  - right; left; reflexivity.
Defined.

Lemma buildEnhancedPath_development_witness :
  app_isPackaged devWorld = false
  /\ buildEnhancedPath devWorld = ([], Return "/usr/local/bin:/usr/bin").
Proof.
  split; [reflexivity|].
  apply (buildEnhancedPath_development devWorld). reflexivity.
Defined.

(** C7, against the claim as stated: in development mode a PATH made of
    one space comes back as the empty string, not unchanged. *)
Lemma buildEnhancedPath_development_blank :
  app_isPackaged blankPathWorld = false
  /\ basePath blankPathWorld = " "
  /\ snd (buildEnhancedPath blankPathWorld) = Return ""
  /\ snd (buildEnhancedPath blankPathWorld) <> Return (basePath blankPathWorld).
Proof.
  repeat split; try (vm_compute; reflexivity).
  vm_compute. discriminate.
Defined.

(** C3, against the claim as stated: the directories of the returned
    string can repeat (the inherited PATH is never split), and with PATH
    unset the last directory of the result is a bundle directory, not the
    empty string. *)
Lemma buildEnhancedPath_repeats_and_drops :
  (snd (buildEnhancedPath repeatedPathWorld) = Return "/usr/bin:/usr/bin"
   /\ ~ NoDup (JsString.split ":" "/usr/bin:/usr/bin"))
  /\ (basePath noPathWorld = ""
      /\ snd (buildEnhancedPath noPathWorld) = Return nodeLinuxDir
      /\ last (JsString.split ":" nodeLinuxDir) <> Some "").
Proof.
  split; [split|split; [|split]]; try (vm_compute; reflexivity).
  - vm_compute JsString.split. intros Hnd.
    apply NoDup_cons in Hnd as [Hnotin _]. apply Hnotin. left.
  - vm_compute. discriminate.
Defined.

Lemma buildEnhancedPath_parts_witness :
  JsString.trim (basePath binaryWorld) <> ""
  /\ prependedDirs binaryWorld = [nodeLinuxDir]
  /\ ~ In (basePath binaryWorld) (prependedDirs binaryWorld)
  /\ exists tr,
       buildEnhancedPath binaryWorld =
         (tr, Return (JsString.join (pathSeparator binaryWorld)
                        (uniquePaths (prependedDirs binaryWorld
                                      ++ [basePath binaryWorld])%list)))
       /\ NoDup (uniquePaths (prependedDirs binaryWorld
                              ++ [basePath binaryWorld])%list)
       /\ last (uniquePaths (prependedDirs binaryWorld
                             ++ [basePath binaryWorld])%list)
          = Some (basePath binaryWorld).
Proof.
  assert (Hnb : JsString.trim (basePath binaryWorld) <> "")
    by (vm_compute; discriminate).
  assert (Hdirs : prependedDirs binaryWorld = [nodeLinuxDir])
    by (vm_compute; reflexivity).
  assert (Hout : ~ In (basePath binaryWorld) (prependedDirs binaryWorld)).
  { rewrite Hdirs. intros [Hc|[]]. vm_compute in Hc. discriminate Hc. }
  split; [exact Hnb|]. split; [exact Hdirs|]. split; [exact Hout|].
  destruct (buildEnhancedPath_parts binaryWorld)
    as (tr & Heq & _ & Hnd & _ & _ & Hlast & _).
  exists tr. split; [exact Heq|]. split; [exact Hnd|]. apply Hlast; assumption.
Defined.

Lemma getSystemArchKey_cases_witness :
  ~ In (process_platform freebsdWorld) ["darwin"; "linux"; "win32"]
  /\ getSystemArchKey freebsdWorld = "freebsd-x64"
  /\ Forall (fun dep => paths dep !! getSystemArchKey freebsdWorld = None
                       /\ configuredPath dep (getSystemArchKey freebsdWorld) = None)
       PACKAGED_DEPENDENCIES.
Proof.
  assert (Hns : ~ In (process_platform freebsdWorld) ["darwin"; "linux"; "win32"]).
  { cbn. intros [H|[H|[H|[]]]]; discriminate H. }
  split; [exact Hns|].
  destruct (getSystemArchKey_cases freebsdWorld) as (_ & _ & _ & Hraw).
  exact (Hraw Hns).
Defined.

Example darwin_scenario :
  snd (getExecutablePath darwinWorld "node") = Return (Some nodeDarwin)
  /\ snd (buildEnhancedPath darwinWorld)
     = Return ("/Applications/AICowork.app/Contents/Resources/app.asar.unpacked/vendor/node-darwin-arm64/node-v20.18.0-darwin-arm64/bin"
               ++ ":/usr/bin:/bin").
Proof. split; vm_compute; reflexivity. Qed.

Example linux_bundle_absent :
  snd (getExecutablePath emptyBundleWorld "node") = Return (Some "node")
  /\ snd (getExecutablePath emptyBundleWorld "uv") = Return None
  /\ snd (buildEnhancedPath emptyBundleWorld) = Return "/usr/bin".
Proof. repeat split; vm_compute; reflexivity. Qed.

(** The probe shipped in the compiled [packaging.js] does kill the child
    when its timer elapses. *)
Example compiled_probe_kills_on_timeout :
  settled (Compiled.run [TimerElapsed]) = Some false
  /\ signals (Compiled.run [TimerElapsed]) = ["SIGTERM"].
Proof. split; reflexivity. Qed.

Example probe_timeout :
  settled (run [TimerElapsed]) = Some false /\ signals (run [TimerElapsed]) = [].
Proof. split; reflexivity. Qed.

Example probe_exit_zero :
  settled (run [Exit (Some 0); Close (Some 0)]) = Some true.
Proof. reflexivity. Qed.

(** ** The further properties at concrete inputs *)

Lemma getExecutablePath_missing_file_witness :
  app_isPackaged emptyBundleWorld = true
  /\ declaredPath emptyBundleWorld "uv" = Some uvLinuxRelative
  /\ fs_existsSync emptyBundleWorld (unpacked emptyBundleWorld uvLinuxRelative) = false
  /\ (snd (getExecutablePath emptyBundleWorld "uv")
        = Return (if String.eqb "uv" "node" then Some "node" else None)
      /\ fsEvents (fst (getExecutablePath emptyBundleWorld "uv"))
         = [ExistsSync (unpacked emptyBundleWorld uvLinuxRelative)]).
Proof.
  split; [reflexivity|]. split; [vm_compute; reflexivity|].
  split; [vm_compute; reflexivity|].
  apply (getExecutablePath_missing_file emptyBundleWorld "uv" uvLinuxRelative);
    vm_compute; reflexivity.
Defined.

Lemma buildEnhancedPath_priority_witness :
  app_isPackaged binaryWorld = true
  /\ fs_existsSync binaryWorld (unpacked binaryWorld nodeLinuxRelative) = true
  /\ fs_existsSync binaryWorld (unpacked binaryWorld uvLinuxRelative) = false
  /\ (snd (buildEnhancedPath binaryWorld) =
        Return (JsString.join (pathSeparator binaryWorld)
                  (uniquePaths
                     ((if fs_existsSync binaryWorld (unpacked binaryWorld nodeLinuxRelative)
                       then [dirname (unpacked binaryWorld nodeLinuxRelative)] else [])
                      ++ (if fs_existsSync binaryWorld (unpacked binaryWorld uvLinuxRelative)
                          then [dirname (unpacked binaryWorld uvLinuxRelative)] else [])
                      ++ [basePath binaryWorld])%list))
      /\ fsEvents (fst (buildEnhancedPath binaryWorld))
         = [ExistsSync (unpacked binaryWorld uvLinuxRelative);
            ExistsSync (unpacked binaryWorld nodeLinuxRelative)]).
Proof.
  split; [reflexivity|]. split; [vm_compute; reflexivity|].
  split; [vm_compute; reflexivity|].
  apply (buildEnhancedPath_priority binaryWorld uvLinuxRelative nodeLinuxRelative);
    vm_compute; reflexivity.
Defined.

Lemma buildEnhancedPath_unsupported_host_witness :
  app_isPackaged freebsdWorld = true
  /\ ~ In (process_platform freebsdWorld) ["darwin"; "linux"; "win32"]
  /\ buildEnhancedPath freebsdWorld = ([], Return "/usr/bin").
Proof.
  assert (Hns : ~ In (process_platform freebsdWorld) ["darwin"; "linux"; "win32"]).
  { cbn. intros [H|[H|[H|[]]]]; discriminate H. }
  split; [reflexivity|]. split; [exact Hns|].
  exact (buildEnhancedPath_unsupported_host freebsdWorld Hns).
Defined.

Lemma validatePackagedDependencies_packaged_witness :
  app_isPackaged stubWorld = true
  /\ snd (getExecutablePath stubWorld "node") = Return (Some "node")
  /\ fs_existsSync stubWorld (unpacked stubWorld uvLinuxRelative) = false
  /\ exists tr results,
       validatePackagedDependencies stubWorld = (tr, Return results)
       /\ results !! "node" = Some true
       /\ results !! "uv"
          = Some (fs_existsSync stubWorld (unpacked stubWorld uvLinuxRelative)).
Proof.
  split; [reflexivity|]. split; [vm_compute; reflexivity|].
  split; [vm_compute; reflexivity|].
  apply (validatePackagedDependencies_packaged stubWorld
           uvLinuxRelative nodeLinuxRelative);
    try (vm_compute; reflexivity); vm_compute; discriminate.
Defined.

Lemma validatePackagedDependencies_development_witness :
  app_isPackaged devWorld = false
  /\ (snd (validatePackagedDependencies devWorld)
        = Return (<["node" := true]> (<["uv" := true]> ∅))
      /\ fsEvents (fst (validatePackagedDependencies devWorld)) = []).
Proof.
  split; [reflexivity|].
  apply (validatePackagedDependencies_development devWorld). reflexivity.
Defined.

Lemma bun_getSDKExecutableOptions_never_node_witness :
  (forall rel, BunRevision.declaredPath emptyBundleWorld "bun" = Some rel ->
               unpacked emptyBundleWorld rel <> "")
  /\ exists tr options,
       BunRevision.getSDKExecutableOptions emptyBundleWorld ∅ = (tr, Return options)
       /\ options_executable options <> Some "node"
       /\ options_executable options = Some "bun".
Proof.
  assert (Hne : forall rel,
             BunRevision.declaredPath emptyBundleWorld "bun" = Some rel ->
             unpacked emptyBundleWorld rel <> "").
  { intros rel Hrel. vm_compute in Hrel. injection Hrel as <-.
    vm_compute. discriminate. }
  split; [exact Hne|].
  destruct (bun_getSDKExecutableOptions_never_node emptyBundleWorld ∅ Hne)
    as (tr & options & Heq & Hnode & Hbun & _).
  exists tr, options. split; [exact Heq|]. split; [exact Hnode|].
  apply Hbun. right. right. left. reflexivity.
Defined.

Lemma bun_getExecutablePath_missing_file_witness :
  app_isPackaged emptyBundleWorld = true
  /\ BunRevision.declaredPath emptyBundleWorld "bun" = Some bunLinuxRelative
  /\ fs_existsSync emptyBundleWorld (unpacked emptyBundleWorld bunLinuxRelative) = false
  /\ (snd (BunRevision.getExecutablePath emptyBundleWorld "bun")
        = Return (if String.eqb "bun" "uv" then None else Some "bun")
      /\ fsEvents (fst (BunRevision.getExecutablePath emptyBundleWorld "bun"))
         = [ExistsSync (unpacked emptyBundleWorld bunLinuxRelative)]).
Proof.
  split; [reflexivity|]. split; [vm_compute; reflexivity|].
  split; [vm_compute; reflexivity|].
  apply (bun_getExecutablePath_missing_file emptyBundleWorld "bun" bunLinuxRelative);
    vm_compute; reflexivity.
Defined.

Lemma parseLine_assignment_witness :
  EnvFile.validKey "ANTHROPIC_MODEL" = true
  /\ EnvFile.stripQuotes (JsString.trim " 'glm-4=x' ") = "glm-4=x"
  /\ EnvFile.parseLine ∅ ("ANTHROPIC_MODEL" ++ "=" ++ " 'glm-4=x' ")
     = (if EnvFile.noLineTerminator (JsString.trimEnd " 'glm-4=x' ")
        then EnvFile.setProperty "ANTHROPIC_MODEL"
               (EnvFile.stripQuotes (JsString.trim " 'glm-4=x' ")) ∅
        else ∅).
Proof.
  split; [reflexivity|]. split; [reflexivity|].
  apply (parseLine_assignment ∅ "ANTHROPIC_MODEL" " 'glm-4=x' "). reflexivity.
Defined.

Lemma sampleVars_storable :
  forall k v, k ∈ EnvFile.KNOWN_KEYS -> sampleVars !! k = Some v -> storable v.
Proof.
  intros k v Hin. unfold EnvFile.KNOWN_KEYS in Hin.
  rewrite !elem_of_cons, elem_of_nil in Hin.
  destruct Hin as [->|[->|[->|[->|[]]]]]; vm_compute; intros [= <-];
    first [left; reflexivity | right; reflexivity].
Qed.

Lemma readEnvFile_after_writeEnvFile_witness :
  (forall k v, k ∈ EnvFile.KNOWN_KEYS -> sampleVars !! k = Some v -> storable v)
  /\ kept sampleVars "ANTHROPIC_AUTH_TOKEN" = Some "sk-YWJjZA=="
  /\ kept sampleVars "ANTHROPIC_MODEL" = None
  /\ kept sampleVars "HTTP_PROXY" = None
  /\ exists tr tr' r,
       snd (EnvFile.writeEnvFile EnvFile.noFaults sampleVars freshDisk) = (tr, Return tt)
       /\ EnvFile.readEnvFile EnvFile.noFaults
            (fst (EnvFile.writeEnvFile EnvFile.noFaults sampleVars freshDisk))
          = (tr', Return r)
       /\ forall k, r !! k = kept sampleVars k.
Proof.
  split; [exact sampleVars_storable|].
  split; [vm_compute; reflexivity|]. split; [vm_compute; reflexivity|].
  split; [vm_compute; reflexivity|].
  apply (readEnvFile_after_writeEnvFile EnvFile.noFaults sampleVars freshDisk).
  - reflexivity.
  - reflexivity.
  - right. reflexivity.
  - exact sampleVars_storable.
Defined.

Lemma loadApiConfigFromEnv_after_save_witness :
  EnvFile.clean (EnvFile.apiKey sampleConfig) = true
  /\ EnvFile.clean (EnvFile.baseURL sampleConfig) = true
  /\ EnvFile.clean (EnvFile.model sampleConfig) = true
  /\ snd (snd (EnvFile.saveApiConfigToEnv EnvFile.noFaults sampleConfig usedDisk))
     = Return tt
  /\ snd (EnvFile.loadApiConfigFromEnv EnvFile.noFaults
            (fst (EnvFile.saveApiConfigToEnv EnvFile.noFaults sampleConfig usedDisk)))
     = Return (Some {| EnvFile.apiKey := "sk-YWJjZA==";
                       EnvFile.baseURL := "https://api.example.com/v1";
                       EnvFile.model := "glm-4 plus";
                       EnvFile.apiType := Some "anthropic" |}).
Proof.
  split; [reflexivity|]. split; [reflexivity|]. split; [reflexivity|].
  apply (loadApiConfigFromEnv_after_save EnvFile.noFaults sampleConfig usedDisk).
  - reflexivity.
  - reflexivity.
  - left. reflexivity.
  - right. reflexivity.
  - right. reflexivity.
  - right. reflexivity.
  - intros t Ht. discriminate Ht.
Defined.

Lemma writeEnvFile_failure_witness :
  EnvFile.userDataExists usedDisk = true
  /\ EnvFile.writeFault readOnlyDisk = Some (EnvFile.FailsAtOpen EACCES)
  /\ (snd (EnvFile.writeEnvFile readOnlyDisk sampleVars usedDisk)
        = ([Log error "[env-file] Failed to write .env file:" (Some EACCES)],
           Throw {| message := "保存环境变量文件失败: " ++ message EACCES |})
      /\ EnvFile.envFile (fst (EnvFile.writeEnvFile readOnlyDisk sampleVars usedDisk))
         = EnvFile.envFile usedDisk)
  /\ EnvFile.writeFault fullDisk = Some (EnvFile.FailsAfterOpen 10 ENOSPC)
  /\ (snd (EnvFile.writeEnvFile fullDisk sampleVars usedDisk)
        = ([Log error "[env-file] Failed to write .env file:" (Some ENOSPC)],
           Throw {| message := "保存环境变量文件失败: " ++ message ENOSPC |})
      /\ EnvFile.envFile (fst (EnvFile.writeEnvFile fullDisk sampleVars usedDisk))
         = Some "# AICowork").
Proof.
  split; [reflexivity|]. split; [reflexivity|].
  destruct (writeEnvFile_failure readOnlyDisk sampleVars usedDisk)
    as (_ & Hopen & _).
  destruct (writeEnvFile_failure fullDisk sampleVars usedDisk)
    as (_ & _ & Hafter).
  split; [apply Hopen; [left; reflexivity|reflexivity]|].
  split; [reflexivity|].
  destruct (Hafter 10%nat ENOSPC) as (Hthrow & Hfile & _);
    [left; reflexivity|reflexivity|].
  split; [exact Hthrow|exact Hfile].
Defined.

Lemma saveApiConfigToEnv_line_feed_injects_witness :
  EnvFile.clean "sk-mine" = true
  /\ EnvFile.clean "https://api.example.com" = true
  /\ EnvFile.clean "glm-4" = true
  /\ EnvFile.clean "sk-other" = true
  /\ snd (EnvFile.loadApiConfigFromEnv EnvFile.noFaults
            (fst (EnvFile.saveApiConfigToEnv EnvFile.noFaults
                    {| EnvFile.apiKey := "sk-mine";
                       EnvFile.baseURL := "https://api.example.com";
                       EnvFile.model :=
                         "glm-4" ++ String LF ("ANTHROPIC_AUTH_TOKEN=" ++ "sk-other");
                       EnvFile.apiType := None |} freshDisk)))
     = Return (Some {| EnvFile.apiKey := "sk-other";
                       EnvFile.baseURL := "https://api.example.com";
                       EnvFile.model := "glm-4";
                       EnvFile.apiType := Some "anthropic" |}).
Proof.
  split; [reflexivity|]. split; [reflexivity|]. split; [reflexivity|].
  split; [reflexivity|].
  apply (saveApiConfigToEnv_line_feed_injects freshDisk
           "sk-mine" "https://api.example.com" "glm-4" "sk-other"); reflexivity.
Defined.

Lemma getSDKExecutableOptions_executable_witness :
  app_isPackaged devWorld = false
  /\ exists tr options,
       getSDKExecutableOptions devWorld ∅ = (tr, Return options)
       /\ options_executable options = Some "node".
Proof.
  split; [reflexivity|].
  destruct (getSDKExecutableOptions_executable devWorld ∅)
    as (tr & options & Heq & Hdev & _).
  exists tr, options. split; [exact Heq|]. apply Hdev. reflexivity.
Defined.

Lemma bun_getSDKExecutableOptions_BUN_INSTALL_witness :
  app_isPackaged devWorld = false
  /\ dirname "bun" = "."
  /\ exists tr options,
       BunRevision.getSDKExecutableOptions devWorld ∅ = (tr, Return options)
       /\ options_env options !! "BUN_INSTALL" = Some (dirname "bun").
Proof.
  split; [reflexivity|]. split; [reflexivity|].
  destruct (bun_getSDKExecutableOptions_BUN_INSTALL devWorld ∅)
    as (tr & options & bunPath & Heq & _ & _ & Hdev & _).
  exists tr, options. split; [exact Heq|]. apply Hdev. reflexivity.
Defined.

Example validateExecutable_empty_name_rejects :
  validateExecutable devWorld "" = ([], Throw spawnError)
  /\ BunRevision.validateExecutable devWorld "" = ([], Throw spawnError)
  /\ spawnThrows ("uv" ++ String NUL "") = true
  /\ spawnThrows "uv" = false /\ spawnThrows "node" = false.
Proof. repeat split; reflexivity. Qed.

Example posix_dirname_of_bare_bun : PosixPath.dirname "bun" = ".".
Proof. reflexivity. Qed.

Example crlf_line_parses :
  EnvFile.parseEnv ("ANTHROPIC_MODEL=glm-4" ++ String EnvFile.CR (String LF "# end"))
  = {[ "ANTHROPIC_MODEL" := "glm-4" ]}.
Proof. vm_compute. reflexivity. Qed.
